(** * JARVIS desktop automation: the dispatch contract

    A shallow embedding of the three Python modules of the repository

    - [automation.py]          the Automation Executor,
    - [action_processor.py]    the JSON (single-argument) Command Dispatcher,
    - [automation_runner.py]   the two-argument Command Dispatcher,

    followed by the properties of the dispatch contract.

    Python values are an inductive type, Python dictionaries are finite maps,
    and a run of Python code is a pair of the trace of events it produced and
    of its outcome: a returned value or a raised exception.  The operating
    system, the browser, the keyboard driver, the console and the parts of
    the Python library whose result depends on the characters of a string
    (the JSON decoder, lower-casing outside ASCII, the encoding of a printed
    line) are not part of the repository; they are a [Host], a record of
    functions that say, for each call, what it returns or raises. *)

From Stdlib Require Import ZArith String Ascii List Lia.
From Stdlib Require Import Floats.SpecFloat.
From stdpp Require Import base option list gmap strings.

Set Warnings "-register-all".
Open Scope string_scope.

(** ** Python values *)

(** The values [json.loads] produces.  A [str] is modelled by the bytes of
    its UTF-8 encoding, so that ASCII text is itself; a [float] by its IEEE
    754 description; a [dict] with string keys as a finite map. *)
Inductive pyvalue : Type :=
| PNone
| PBool (b : bool)
| PInt (n : Z)
| PFloat (f : spec_float)
| PStr (s : string)
| PList (l : list pyvalue)
| PDict (d : gmap string pyvalue).

(** [bool(v)], the test behind [if not v]. *)
Definition truthy (v : pyvalue) : bool :=
  match v with
  | PNone => false
  | PBool b => b
  | PInt n => negb (n =? 0)%Z
  | PFloat (S754_zero _) => false
  | PFloat _ => true
  | PStr EmptyString => false
  | PStr _ => true
  | PList [] => false
  | PList _ => true
  | PDict d => negb (size d =? 0)%nat
  end.

(** [type(v).__name__] *)
Definition type_name (v : pyvalue) : string :=
  match v with
  | PNone => "NoneType"
  | PBool _ => "bool"
  | PInt _ => "int"
  | PFloat _ => "float"
  | PStr _ => "str"
  | PList _ => "list"
  | PDict _ => "dict"
  end.

(** [v == s] for a string literal [s]: only a [str] equals a [str]. *)
Definition py_eq_str (v : pyvalue) (s : string) : bool :=
  match v with
  | PStr s' => String.eqb s' s
  | _ => false
  end.

(** [str.lower] on ASCII text: the letters [A]..[Z] move to [a]..[z] and every
    other character stays. *)
Definition lower_ascii (c : ascii) : ascii :=
  let n := nat_of_ascii c in
  if ((65 <=? n) && (n <=? 90))%nat then ascii_of_nat (n + 32) else c.

Fixpoint lower (s : string) : string :=
  match s with
  | EmptyString => EmptyString
  | String c s' => String (lower_ascii c) (lower s')
  end.

(** A string of ASCII characters only: every byte is below 128. *)
Fixpoint is_ascii (s : string) : bool :=
  match s with
  | EmptyString => true
  | String c s' => (nat_of_ascii c <? 128)%nat && is_ascii s'
  end.

(** A value whose [str] is ASCII text whatever it holds: [None], a boolean,
    a number, or a string of ASCII characters.  (Of a list or a dictionary
    this is not decided here.) *)
Definition plain (v : pyvalue) : bool :=
  match v with
  | PStr s => is_ascii s
  | PList _ | PDict _ => false
  | _ => true
  end.

(** ** Exceptions, events and runs *)

(** The classes the code and the properties tell apart.  Every [exn] is an
    instance of [Exception]; [exn_str e] is [str(e)]. *)
Inductive exn_class : Type :=
| JSONDecodeError
| AttributeError
| IndexError
| UnicodeEncodeError
| SyntaxError
| OtherError (name : string).

Record exn : Type := Exn { exn_class_of : exn_class; exn_str : string }.

(** What a [raise] carries: an [Exception], or the [SystemExit] of
    [sys.exit(code)], which [except Exception] does not catch. *)
Inductive raised : Type :=
| Exc (e : exn)
| SystemExit (code : Z).

Inductive outcome (A : Type) : Type :=
| Return (a : A)
| Raise (r : raised).
Arguments Return {A} a.
Arguments Raise {A} r.

(** The three operations of the Executor. *)
Inductive operation : Type := SearchGoogle | OpenWebApp | OpenDesktopApp.

(** The pieces of a printed f-string: literal text of the source, and [{v}],
    the value [v] rendered by [str]. *)
Inductive piece : Type :=
| Lit (s : string)
| Fmt (v : pyvalue).

(** What a run does, in order.  [Print msg] is a line that reached the
    console; [Invoke op arg] marks the entry into a function of
    [automation.py]; the others are the calls into the host, recorded whether
    they return or raise. *)
Inductive event : Type :=
| Print (msg : list piece)
| Invoke (op : operation) (arg : pyvalue)
| WebbrowserOpen (url : pyvalue)
| TimeSleep (seconds : Z)
| PyautoguiWrite (message : pyvalue)
| PyautoguiPress (key : string)
| SubprocessPopen (args : list string).

Definition trace : Type := list event.

(** A run: the events so far and how it ended. *)
Definition run (A : Type) : Type := (trace * outcome A)%type.

Definition ret {A} (a : A) : run A := ([], Return a).

Definition bind {A B} (m : run A) (k : A -> run B) : run B :=
  match m with
  | (t, Return a) => let '(t', r) := k a in ((t ++ t')%list, r)
  | (t, Raise r) => (t, Raise r)
  end.

Notation "x <- m ;; k" := (bind m (fun x => k))
  (at level 100, m at next level, right associativity).
Notation "m ;; k" := (bind m (fun _ => k))
  (at level 100, right associativity).

Definition emit (e : event) : run unit := ([e], Return tt).

Definition raise {A} (r : raised) : run A := ([], Raise r).

(** [sys.exit(code)] *)
Definition sys_exit {A} (code : Z) : run A := raise (SystemExit code).

(** [try: body  except Exception as e: handler(e)].  A [SystemExit] goes
    through. *)
Definition try_except {A} (body : run A) (handler : exn -> run A) : run A :=
  match body with
  | (t, Raise (Exc e)) => let '(t', r) := handler e in ((t ++ t')%list, r)
  | _ => body
  end.

(** The exit status of the interpreter: 0 when the script returns, the code
    of a [SystemExit], 1 after an uncaught exception. *)
Definition exit_code {A} (m : run A) : Z :=
  match snd m with
  | Return _ => 0
  | Raise (SystemExit c) => c
  | Raise (Exc _) => 1
  end%Z.

(** [v.get(key, dflt)]: only a [dict] has [get]. *)
Definition py_get (v : pyvalue) (key : string) (dflt : pyvalue) : run pyvalue :=
  match v with
  | PDict d => ret (default dflt (d !! key))
  | _ => raise (Exc (Exn AttributeError
             ("'" ++ type_name v ++ "' object has no attribute 'get'")))
  end.

(** ** The host *)

(** What a failed call into the browser, the keyboard driver or process
    creation raises: an instance of a class of their own ([webbrowser.Error],
    [FailSafeException], [FileNotFoundError], ...) and its text. *)
Record failure : Type := Failure { failure_class : string; failure_str : string }.

Definition exn_of_failure (f : failure) : exn :=
  Exn (OtherError (failure_class f)) (failure_str f).

(** The library and system calls the code makes.

    - [json.loads] returns the decoded value or raises.
    - [webbrowser.open], [pyautogui.write], [pyautogui.press] and
      [subprocess.Popen]: [None] is a normal return, [Some f] the failure.
    - [os.path.expanduser].
    - [host_str_lower] is [str.lower] on a string that is not ASCII.
    - [host_encodable v] says whether the console can encode [str(v)]: a
      [print] of a line that formats a value it cannot encode raises
      [UnicodeEncodeError], with the text [host_encode_error] gives for the
      line, and writes nothing.

    Interrupts of the interpreter and a console that is closed are outside
    the model; [time.sleep] always returns. *)
Record Host : Type := {
  host_json_loads : string -> exn + pyvalue;
  host_webbrowser_open : pyvalue -> option failure;
  host_pyautogui_write : pyvalue -> option failure;
  host_pyautogui_press : string -> option failure;
  host_subprocess_Popen : list string -> option failure;
  host_expanduser : string -> string;
  host_str_lower : string -> string;
  host_encodable : pyvalue -> bool;
  host_encode_error : list piece -> string
}.

(** A call into the host: the event, then the return or the exception. *)
Definition host_call (ev : event) (r : option failure) : run unit :=
  ([ev], match r with
         | None => Return tt
         | Some f => Raise (Exc (exn_of_failure f))
         end).

Section HostCalls.
Variable h : Host.

Definition json_loads (s : string) : run pyvalue :=
  match host_json_loads h s with
  | inl e => raise (Exc e)
  | inr v => ret v
  end.

Definition webbrowser_open (url : pyvalue) : run unit :=
  host_call (WebbrowserOpen url) (host_webbrowser_open h url).

Definition time_sleep (seconds : Z) : run unit := emit (TimeSleep seconds).

Definition pyautogui_write (message : pyvalue) : run unit :=
  host_call (PyautoguiWrite message) (host_pyautogui_write h message).

Definition pyautogui_press (key : string) : run unit :=
  host_call (PyautoguiPress key) (host_pyautogui_press h key).

Definition subprocess_Popen (args : list string) : run unit :=
  host_call (SubprocessPopen args) (host_subprocess_Popen h args).

(** The console can print the value: its [str] is ASCII text, which every
    console encodes, or the host says so. *)
Definition printable (v : pyvalue) : bool := plain v || host_encodable h v.

(** The literal text of the source is ASCII. *)
Definition piece_printable (p : piece) : bool :=
  match p with
  | Lit _ => true
  | Fmt v => printable v
  end.

(** The exception of a [print] that fails. *)
Definition print_error (msg : list piece) : exn :=
  Exn UnicodeEncodeError (host_encode_error h msg).

(** [print(f"...")]: the line is encoded as a whole, then written. *)
Definition print (msg : list piece) : run unit :=
  if forallb piece_printable msg then emit (Print msg)
  else raise (Exc (print_error msg)).

(** [s.lower()] *)
Definition str_lower (s : string) : string :=
  if is_ascii s then lower s else host_str_lower h s.

(** [v.lower()]: only a [str] has [lower]. *)
Definition py_lower (v : pyvalue) : run string :=
  match v with
  | PStr s => ret (str_lower s)
  | _ => raise (Exc (Exn AttributeError
             ("'" ++ type_name v ++ "' object has no attribute 'lower'")))
  end.
End HostCalls.

(** ** automation.py: the Automation Executor *)

Module automation.
Section Automation.
Variable h : Host.

(** [search_google(query)]: open the search engine, wait two seconds, type
    the query, press enter. *)
Definition search_google (query : pyvalue) : run bool :=
  emit (Invoke SearchGoogle query) ;;
  print h [Lit "[JARVIS] Searching Google for: '"; Fmt query; Lit "'"] ;;
  webbrowser_open h (PStr "https://www.google.com") ;;
  time_sleep 2 ;;
  pyautogui_write h query ;;
  pyautogui_press h "enter" ;;
  print h [Lit "[JARVIS] Search completed for: '"; Fmt query; Lit "'"] ;;
  ret true.

(** [open_web_app(url)] *)
Definition open_web_app (url : pyvalue) : run bool :=
  emit (Invoke OpenWebApp url) ;;
  print h [Lit "[JARVIS] Opening web app: "; Fmt url] ;;
  webbrowser_open h url ;;
  print h [Lit "[JARVIS] Opened web app: "; Fmt url] ;;
  ret true.

(** [open_desktop_app(app_name)].  The first line is printed and the name is
    rebound to its lower case before the [try]; each branch creates one
    process and sets [success]; the line of success is printed inside the
    [try]. *)
Definition open_desktop_app (app_name : pyvalue) : run bool :=
  emit (Invoke OpenDesktopApp app_name) ;;
  print h [Lit "[JARVIS] Launching desktop app: "; Fmt app_name] ;;
  app_name <- py_lower h app_name ;;
  try_except
    (success <-
       (if app_name =? "spotify" then
          let app_path :=
            host_expanduser h "~\AppData\Roaming\Spotify\Spotify.exe" in
          subprocess_Popen h [app_path] ;; ret true
        else if app_name =? "notepad" then
          subprocess_Popen h ["notepad"] ;; ret true
        else if app_name =? "calculator" then
          subprocess_Popen h ["calc"] ;; ret true
        else if (app_name =? "vscode") || (app_name =? "visual studio code") then
          subprocess_Popen h ["code"] ;; ret true
        else if (app_name =? "explorer") || (app_name =? "file explorer") then
          subprocess_Popen h ["explorer"] ;; ret true
        else
          subprocess_Popen h [app_name] ;; ret true) ;;
     print h [Lit "[JARVIS] Successfully launched: "; Fmt (PStr app_name)] ;;
     ret success)
    (fun e =>
       print h [Lit "[JARVIS] Error launching "; Fmt (PStr app_name);
                Lit ": "; Fmt (PStr (exn_str e))] ;;
       ret false).
End Automation.
End automation.

(** ** action_processor.py: the single-argument dispatcher *)

Module action_processor.
Section ActionProcessor.
Variable h : Host.

(** The body of the [try] of [process_action]. *)
Definition process_action_body (action_json : string) : run bool :=
  action_data <- json_loads h action_json ;;
  action_type <- py_get action_data "action" PNone ;;
  params <- py_get action_data "params" (PDict ∅) ;;
  if negb (truthy action_type) then
    print h [Lit "Error: No action specified in the JSON"] ;;
    ret false
  else if py_eq_str action_type "search_google" then
    query <- py_get params "query" PNone ;;
    if negb (truthy query) then
      print h [Lit "Error: No query provided for search_google action"] ;;
      ret false
    else automation.search_google h query
  else if py_eq_str action_type "open_web_app" then
    url <- py_get params "url" PNone ;;
    if negb (truthy url) then
      print h [Lit "Error: No URL provided for open_web_app action"] ;;
      ret false
    else automation.open_web_app h url
  else if py_eq_str action_type "open_desktop_app" then
    app_name <- py_get params "app_name" PNone ;;
    if negb (truthy app_name) then
      print h [Lit "Error: No app_name provided for open_desktop_app action"] ;;
      ret false
    else automation.open_desktop_app h app_name
  else
    print h [Lit "Error: Unknown action type '"; Fmt action_type; Lit "'"] ;;
    ret false.

(** The two [except] clauses, in their order: [json.JSONDecodeError], then
    [Exception].  Nothing guards their own [print]. *)
Definition process_action_handler (action_json : string) (e : exn) : run bool :=
  match exn_class_of e with
  | JSONDecodeError =>
      print h [Lit "Error: Invalid JSON format: "; Fmt (PStr action_json)] ;;
      ret false
  | _ =>
      print h [Lit "Error processing action: "; Fmt (PStr (exn_str e))] ;;
      ret false
  end.

(** [process_action(action_json)], lines 5 to 61 of the file. *)
Definition process_action (action_json : string) : run bool :=
  try_except (process_action_body action_json)
             (process_action_handler action_json).

End ActionProcessor.

(** Running the script.  As it stands the file is not a Python program: on
    line 70 the string literal of the usage line ends at its first inner
    quote, and what follows it is not an expression.  The interpreter
    refuses the whole file with a [SyntaxError] before it runs a statement
    of it: whatever the arguments and the host, no line of the program is
    printed, nothing is called, and the exit status is 1.  ([process_action]
    above is the text of lines 5 to 61, which is well formed.) *)
Definition main (h : Host) (argv : list string) : run unit :=
  raise (Exc (Exn SyntaxError "invalid syntax (action_processor.py, line 70)")).
End action_processor.

(** ** automation_runner.py: the two-argument dispatcher *)

Module automation_runner.
Section AutomationRunner.
Variable h : Host.

(** [main()], with [sys.argv] as [argv].  What the three operations return
    is dropped. *)
Definition main (argv : list string) : run unit :=
  (if (length argv <? 3)%nat then
     print h [Lit "Error: Insufficient arguments"] ;;
     print h [Lit "Usage: python automation_runner.py <command_type> <parameter>"] ;;
     sys_exit 1
   else ret tt) ;;
  command_type <-
    match argv !! 1%nat with
    | Some a => ret a
    | None => raise (Exc (Exn IndexError "list index out of range"))
    end ;;
  parameter <-
    match argv !! 2%nat with
    | Some a => ret a
    | None => raise (Exc (Exn IndexError "list index out of range"))
    end ;;
  try_except
    (if command_type =? "search_google" then
       automation.search_google h (PStr parameter) ;; ret tt
     else if command_type =? "open_web_app" then
       automation.open_web_app h (PStr parameter) ;; ret tt
     else if command_type =? "open_desktop_app" then
       automation.open_desktop_app h (PStr parameter) ;; ret tt
     else
       print h [Lit "Error: Unknown command type '"; Fmt (PStr command_type); Lit "'"] ;;
       sys_exit 1)
    (fun e =>
       print h [Lit "Error executing "; Fmt (PStr command_type); Lit ": ";
                Fmt (PStr (exn_str e))] ;;
       sys_exit 1).
End AutomationRunner.
End automation_runner.
(** ** The vocabulary of the contract *)

(** The [action] string of each operation, and the key of [params] it
    requires. *)
Definition action_name (op : operation) : string :=
  match op with
  | SearchGoogle => "search_google"
  | OpenWebApp => "open_web_app"
  | OpenDesktopApp => "open_desktop_app"
  end.

Definition required_key (op : operation) : string :=
  match op with
  | SearchGoogle => "query"
  | OpenWebApp => "url"
  | OpenDesktopApp => "app_name"
  end.

(** An [action] value that names one of the three operations. *)
Definition recognized (a : pyvalue) : bool :=
  py_eq_str a "search_google" || py_eq_str a "open_web_app"
  || py_eq_str a "open_desktop_app".

(** The function of [automation.py] behind each operation. *)
Definition run_operation (h : Host) (op : operation) (arg : pyvalue) : run bool :=
  match op with
  | SearchGoogle => automation.search_google h arg
  | OpenWebApp => automation.open_web_app h arg
  | OpenDesktopApp => automation.open_desktop_app h arg
  end.

(** The line printed when the required parameter of [op] is missing. *)
Definition missing_parameter_message (op : operation) : string :=
  match op with
  | SearchGoogle => "Error: No query provided for search_google action"
  | OpenWebApp => "Error: No URL provided for open_web_app action"
  | OpenDesktopApp => "Error: No app_name provided for open_desktop_app action"
  end.

(** The entries into [automation.py] of a trace, in order. *)
Definition invocations (t : trace) : list (operation * pyvalue) :=
  omap (fun e => match e with Invoke op a => Some (op, a) | _ => None end) t.

(** The calls into the host of a trace: the browser, the keyboard, the clock
    and process creation. *)
Definition is_host_effect (e : event) : bool :=
  match e with
  | Print _ | Invoke _ _ => false
  | _ => true
  end.

Definition host_effects (t : trace) : trace := List.filter is_host_effect t.


(** *** The alias table, as the specification words it

    A lookup structure from the normalized name to a launch command, and the
    fallback: the name itself. *)
Definition alias_table (h : Host) : list (string * list string) :=
  [ ("spotify", [host_expanduser h "~\AppData\Roaming\Spotify\Spotify.exe"]);
    ("notepad", ["notepad"]);
    ("calculator", ["calc"]);
    ("vscode", ["code"]);
    ("visual studio code", ["code"]);
    ("explorer", ["explorer"]);
    ("file explorer", ["explorer"]) ].

Fixpoint assoc {V} (k : string) (l : list (string * V)) : option V :=
  match l with
  | [] => None
  | (k', v) :: l' => if k =? k' then Some v else assoc k l'
  end.

Definition launch_command (h : Host) (name : string) : list string :=
  match assoc name (alias_table h) with
  | Some cmd => cmd
  | None => [name]
  end.

(** *** Descriptors

    [well_formed h s op v]: the text [s] decodes to an object whose [action]
    names [op] and whose [params] is an object that maps the key [op]
    requires to the non-empty (truthy) value [v]. *)
Definition well_formed (h : Host) (s : string) (op : operation) (v : pyvalue) : Prop :=
  exists d p,
    host_json_loads h s = inr (PDict d) /\
    d !! "action" = Some (PStr (action_name op)) /\
    d !! "params" = Some (PDict p) /\
    p !! required_key op = Some v /\
    truthy v = true.

(** [lacks_parameter h s op]: the text [s] decodes to an object whose [action]
    names [op] and whose [params], an object or absent, has no value for the
    key [op] requires, or an empty (falsy) one. *)
Definition lacks_parameter (h : Host) (s : string) (op : operation) : Prop :=
  exists d p,
    host_json_loads h s = inr (PDict d) /\
    d !! "action" = Some (PStr (action_name op)) /\
    (d !! "params" = None /\ p = ∅ \/ d !! "params" = Some (PDict p)) /\
    (p !! required_key op = None \/
     exists v, p !! required_key op = Some v /\ truthy v = false).

(** A run that does not end in [SystemExit]: it returns, or raises an
    [Exception] that an [except Exception] clause stops. *)
Definition catchable {A} (m : run A) : Prop :=
  forall c, snd m <> Raise (SystemExit c).

(** *** Valid JSON, as the specification words it

    A recognizer of the grammar of RFC 8259: one value between optional white
    space.  A byte above 127 is taken as part of a character of a string.
    This is the "valid JSON" of the specification, not what [json.loads]
    accepts: the decoder of Python also reads [NaN], [Infinity] and
    [-Infinity] as numbers. *)
Definition is_ws (c : ascii) : bool :=
  let n := nat_of_ascii c in
  ((n =? 32) || (n =? 9) || (n =? 10) || (n =? 13))%nat.

Fixpoint skip_ws (s : string) : string :=
  match s with
  | String c r => if is_ws c then skip_ws r else s
  | EmptyString => s
  end.

Definition is_digit (c : ascii) : bool :=
  let n := nat_of_ascii c in ((48 <=? n) && (n <=? 57))%nat.

Definition is_hex (c : ascii) : bool :=
  let n := nat_of_ascii c in
  (((48 <=? n) && (n <=? 57)) || ((65 <=? n) && (n <=? 70))
   || ((97 <=? n) && (n <=? 102)))%nat.

Fixpoint skip_digits (s : string) : string :=
  match s with
  | String c r => if is_digit c then skip_digits r else s
  | EmptyString => s
  end.

(** After the opening quote of a string: what follows its closing quote. *)
Fixpoint json_string_tail (s : string) : option string :=
  match s with
  | EmptyString => None
  | String c r =>
      if (nat_of_ascii c =? 34)%nat then Some r
      else if (nat_of_ascii c =? 92)%nat then
        match r with
        | String e r' =>
            if (nat_of_ascii e =? 117)%nat then
              match r' with
              | String a (String b (String c' (String d r''))) =>
                  if is_hex a && is_hex b && is_hex c' && is_hex d
                  then json_string_tail r'' else None
              | _ => None
              end
            else if existsb (Nat.eqb (nat_of_ascii e))
                      [34; 92; 47; 98; 102; 110; 114; 116]%nat
            then json_string_tail r'
            else None
        | EmptyString => None
        end
      else if (nat_of_ascii c <? 32)%nat then None
      else json_string_tail r
  end.

(** An optional exponent, after the integer and fraction parts. *)
Definition json_exponent (s : string) : option string :=
  match s with
  | String e r =>
      if ((nat_of_ascii e =? 101) || (nat_of_ascii e =? 69))%nat then
        let r1 := match r with
                  | String sign r' =>
                      if ((nat_of_ascii sign =? 43)
                          || (nat_of_ascii sign =? 45))%nat
                      then r' else r
                  | EmptyString => r
                  end in
        match r1 with
        | String d r2 => if is_digit d then Some (skip_digits r2) else None
        | EmptyString => None
        end
      else Some s
  | EmptyString => Some s
  end.

(** An optional fraction, then an optional exponent. *)
Definition json_fraction (s : string) : option string :=
  match s with
  | String dot r =>
      if (nat_of_ascii dot =? 46)%nat then
        match r with
        | String d r' =>
            if is_digit d then json_exponent (skip_digits r') else None
        | EmptyString => None
        end
      else json_exponent s
  | EmptyString => Some s
  end.

Definition json_number (s : string) : option string :=
  let s1 := match s with
            | String sign r => if (nat_of_ascii sign =? 45)%nat then r else s
            | EmptyString => s
            end in
  match s1 with
  | String d r =>
      if (nat_of_ascii d =? 48)%nat then json_fraction r
      else if is_digit d then json_fraction (skip_digits r)
      else None
  | EmptyString => None
  end.

(** [s] without the prefix [p]. *)
Fixpoint strip_prefix (p s : string) : option string :=
  match p, s with
  | EmptyString, _ => Some s
  | String a p', String b s' =>
      if Ascii.eqb a b then strip_prefix p' s' else None
  | String _ _, EmptyString => None
  end.

(** One value, the elements of an array after its first bracket, the members
    of an object after its first brace; the fuel bounds the calls. *)
Fixpoint json_value (fuel : nat) (s : string) : option string :=
  match fuel with
  | O => None
  | S n =>
      match skip_ws s with
      | EmptyString => None
      | String c r =>
          if (nat_of_ascii c =? 91)%nat then
            match skip_ws r with
            | String c2 r2 =>
                if (nat_of_ascii c2 =? 93)%nat then Some r2
                else json_elements n r
            | EmptyString => None
            end
          else if (nat_of_ascii c =? 123)%nat then
            match skip_ws r with
            | String c2 r2 =>
                if (nat_of_ascii c2 =? 125)%nat then Some r2
                else json_members n r
            | EmptyString => None
            end
          else if (nat_of_ascii c =? 34)%nat then json_string_tail r
          else if (nat_of_ascii c =? 116)%nat then strip_prefix "true" (String c r)
          else if (nat_of_ascii c =? 102)%nat then strip_prefix "false" (String c r)
          else if (nat_of_ascii c =? 110)%nat then strip_prefix "null" (String c r)
          else json_number (String c r)
      end
  end
with json_elements (fuel : nat) (s : string) : option string :=
  match fuel with
  | O => None
  | S n =>
      match json_value n s with
      | Some r =>
          match skip_ws r with
          | String c r' =>
              if (nat_of_ascii c =? 44)%nat then json_elements n r'
              else if (nat_of_ascii c =? 93)%nat then Some r'
              else None
          | EmptyString => None
          end
      | None => None
      end
  end
with json_members (fuel : nat) (s : string) : option string :=
  match fuel with
  | O => None
  | S n =>
      match skip_ws s with
      | String q r =>
          if (nat_of_ascii q =? 34)%nat then
            match json_string_tail r with
            | Some r1 =>
                match skip_ws r1 with
                | String colon r2 =>
                    if (nat_of_ascii colon =? 58)%nat then
                      match json_value n r2 with
                      | Some r3 =>
                          match skip_ws r3 with
                          | String c r4 =>
                              if (nat_of_ascii c =? 44)%nat
                              then json_members n r4
                              else if (nat_of_ascii c =? 125)%nat then Some r4
                              else None
                          | EmptyString => None
                          end
                      | None => None
                      end
                    else None
                | EmptyString => None
                end
            | None => None
            end
          else None
      | EmptyString => None
      end
  end.

Definition valid_json (s : string) : bool :=
  match json_value (2 * String.length s + 2) s with
  | Some r => match skip_ws r with EmptyString => true | _ => false end
  | None => false
  end.

(** A line of the program: a [print] that reached the console. *)
Definition is_print (e : event) : Prop :=
  match e with
  | Print _ => True
  | _ => False
  end.

(** A refusal: a run that printed at most, and did not return [True]. *)
Definition refusal (m : run bool) : Prop :=
  Forall is_print (fst m) /\ snd m <> Return true.

(** An event that is not an entry into [automation.py]. *)
Definition not_invoke (e : event) : Prop :=
  match e with
  | Invoke _ _ => False
  | _ => True
  end.

(** ** Hosts for the scenarios

    A Windows machine on which every call succeeds, except that no program is
    called [no_such_app]; its console encodes every string (UTF-8); its
    decoder knows the texts below and what [json.loads] makes of them.  The
    names it is given are ASCII (its [host_str_lower] is not [str.lower]
    outside ASCII). *)
Module Scenario.
Definition dq : string := String (ascii_of_nat 34) EmptyString.
Definition quoted (s : string) : string := dq ++ s ++ dq.

(** The text [{"action": a, "params": {k: v}}] and its decoded value. *)
Definition descriptor_text (a k v : string) : string :=
  "{" ++ quoted "action" ++ ": " ++ quoted a ++ ", " ++ quoted "params"
      ++ ": {" ++ quoted k ++ ": " ++ quoted v ++ "}}".

Definition descriptor (a k v : string) : pyvalue :=
  PDict (<["action" := PStr a]>
           (<["params" := PDict (<[k := PStr v]> ∅)]> ∅)).

(** The text [{"action": a}] and its decoded value. *)
Definition bare_text (a : string) : string :=
  "{" ++ quoted "action" ++ ": " ++ quoted a ++ "}".

Definition bare (a : string) : pyvalue := PDict (<["action" := PStr a]> ∅).

Definition decoded : list (string * pyvalue) :=
  [ (descriptor_text "search_google" "query" "weather today",
     descriptor "search_google" "query" "weather today");
    (descriptor_text "open_web_app" "url" "https://example.com",
     descriptor "open_web_app" "url" "https://example.com");
    (descriptor_text "open_desktop_app" "app_name" "Notepad",
     descriptor "open_desktop_app" "app_name" "Notepad");
    (descriptor_text "open_desktop_app" "app_name" "no_such_app",
     descriptor "open_desktop_app" "app_name" "no_such_app");
    (descriptor_text "search_google" "query" "",
     descriptor "search_google" "query" "");
    (bare_text "search_google", bare "search_google");
    (bare_text "delete_everything", bare "delete_everything");
    (bare_text "", bare "");
    ("{}", PDict ∅);
    ("[1, 2]", PList [PInt 1; PInt 2]);
    ("42", PInt 42) ].

Definition expanduser (path : string) : string :=
  match path with
  | String "~" rest => "C:\Users\jarvis" ++ rest
  | _ => path
  end.

Definition host : Host :=
  {| host_json_loads s :=
       match assoc s decoded with
       | Some v => inr v
       | None => inl (Exn JSONDecodeError "Expecting value: line 1 column 1 (char 0)")
       end;
     host_webbrowser_open _ := None;
     host_pyautogui_write _ := None;
     host_pyautogui_press _ := None;
     host_subprocess_Popen args :=
       match args with
       | [prog] =>
           if prog =? "no_such_app"
           then Some (Failure "FileNotFoundError"
                        "[WinError 2] The system cannot find the file specified")
           else None
       | _ => None
       end;
     host_expanduser := expanduser;
     host_str_lower := lower;
     host_encodable _ := true;
     host_encode_error _ := EmptyString |}.

(** The same machine with the mouse in a corner of the screen: the
    fail-safe of the keyboard driver refuses to type. *)
Definition failsafe_host : Host :=
  {| host_json_loads := host_json_loads host;
     host_webbrowser_open := host_webbrowser_open host;
     host_pyautogui_write _ :=
       Some (Failure "FailSafeException"
               "PyAutoGUI fail-safe triggered from mouse moving to a corner of the screen.");
     host_pyautogui_press := host_pyautogui_press host;
     host_subprocess_Popen := host_subprocess_Popen host;
     host_expanduser := expanduser;
     host_str_lower := lower;
     host_encodable := host_encodable host;
     host_encode_error := host_encode_error host |}.

(** The same machine with the output of the script encoded in ASCII (the
    console of a C locale, or [PYTHONIOENCODING=ascii]): a string is encoded
    exactly when it is ASCII.  [host_encode_error] gives the reason of the
    error; the codec, the character and the position that [str(e)] also names
    are left out. *)
Definition ascii_host : Host :=
  {| host_json_loads := host_json_loads host;
     host_webbrowser_open := host_webbrowser_open host;
     host_pyautogui_write := host_pyautogui_write host;
     host_pyautogui_press := host_pyautogui_press host;
     host_subprocess_Popen := host_subprocess_Popen host;
     host_expanduser := expanduser;
     host_str_lower := lower;
     host_encodable _ := false;
     host_encode_error _ := "ordinal not in range(128)" |}.

(** A text that is not JSON and is not ASCII: it ends in U+2615, a cup of
    coffee, the three bytes E2 98 95. *)
Definition coffee : string :=
  String (ascii_of_nat 226) (String (ascii_of_nat 152)
    (String (ascii_of_nat 149) EmptyString)).

Definition not_json_coffee : string := "not json " ++ coffee.
End Scenario.

(** ** A host for the edge cases

    The scenario host, whose decoder also knows four more texts: two JSON
    objects that are not descriptors of the data model ([params] is [null];
    [app_name] is a number), the search of the first scenario with one more
    key, and a search whose query is [NaN], which is not JSON but which
    [json.loads] reads as the float of that name.  Its keyboard driver
    iterates over what it is given to type, which a number, [None] and a
    boolean do not allow. *)
Module Edge.
Definition null_params_text : string :=
  "{" ++ Scenario.quoted "action" ++ ": " ++ Scenario.quoted "search_google"
      ++ ", " ++ Scenario.quoted "params" ++ ": null}".

Definition null_params : pyvalue :=
  PDict (<["action" := PStr "search_google"]> (<["params" := PNone]> ∅)).

Definition number_app_name_text : string :=
  "{" ++ Scenario.quoted "action" ++ ": " ++ Scenario.quoted "open_desktop_app"
      ++ ", " ++ Scenario.quoted "params" ++ ": {"
      ++ Scenario.quoted "app_name" ++ ": 7}}".

Definition number_app_name : pyvalue :=
  PDict (<["action" := PStr "open_desktop_app"]>
           (<["params" := PDict (<["app_name" := PInt 7]> ∅)]> ∅)).

Definition tagged_search_text : string :=
  "{" ++ Scenario.quoted "source" ++ ": " ++ Scenario.quoted "voice" ++ ", "
      ++ Scenario.quoted "action" ++ ": " ++ Scenario.quoted "search_google"
      ++ ", " ++ Scenario.quoted "params" ++ ": {"
      ++ Scenario.quoted "query" ++ ": " ++ Scenario.quoted "weather today"
      ++ ", " ++ Scenario.quoted "lang" ++ ": " ++ Scenario.quoted "en" ++ "}}".

Definition tagged_search : pyvalue :=
  PDict (<["source" := PStr "voice"]>
           (<["action" := PStr "search_google"]>
              (<["params" := PDict (<["query" := PStr "weather today"]>
                                      (<["lang" := PStr "en"]> ∅))]> ∅))).

Definition nan_query_text : string :=
  "{" ++ Scenario.quoted "action" ++ ": " ++ Scenario.quoted "search_google"
      ++ ", " ++ Scenario.quoted "params" ++ ": {"
      ++ Scenario.quoted "query" ++ ": NaN}}".

Definition nan_query : pyvalue :=
  PDict (<["action" := PStr "search_google"]>
           (<["params" := PDict (<["query" := PFloat S754_nan]> ∅)]> ∅)).

Definition decoded : list (string * pyvalue) :=
  [ (null_params_text, null_params);
    (number_app_name_text, number_app_name);
    (tagged_search_text, tagged_search);
    (nan_query_text, nan_query) ].

Definition pyautogui_write (message : pyvalue) : option failure :=
  match message with
  | PStr _ | PList _ | PDict _ => None
  | _ => Some (Failure "TypeError"
                 ("'" ++ type_name message ++ "' object is not iterable"))
  end.

Definition host : Host :=
  {| host_json_loads s :=
       match assoc s decoded with
       | Some v => inr v
       | None => host_json_loads Scenario.host s
       end;
     host_webbrowser_open := host_webbrowser_open Scenario.host;
     host_pyautogui_write := pyautogui_write;
     host_pyautogui_press := host_pyautogui_press Scenario.host;
     host_subprocess_Popen := host_subprocess_Popen Scenario.host;
     host_expanduser := Scenario.expanduser;
     host_str_lower := lower;
     host_encodable := host_encodable Scenario.host;
     host_encode_error := host_encode_error Scenario.host |}.
End Edge.

(** * Properties *)

(** ** Laws of runs *)

Section RunLaws.
Context {A B : Type}.

Lemma bind_ret_l (a : A) (k : A -> run B) : bind (ret a) k = k a.
Proof. unfold bind, ret. now destruct (k a). Qed.

Lemma bind_raise (r : raised) (k : A -> run B) : bind (raise r) k = raise r.
Proof. reflexivity. Qed.

Lemma bind_return (t : trace) (a : A) (k : A -> run B) :
  bind (t, Return a) k = ((t ++ fst (k a))%list, snd (k a)).
Proof. unfold bind. now destruct (k a). Qed.

Lemma bind_raised (t : trace) (r : raised) (k : A -> run B) :
  bind (t, Raise r) k = (t, Raise r).
Proof. reflexivity. Qed.

Lemma try_except_return (t : trace) (a : A) handler :
  try_except (t, Return a) handler = (t, Return a).
Proof. reflexivity. Qed.

Lemma try_except_exc (t : trace) (e : exn) (handler : exn -> run A) :
  try_except (t, Raise (Exc e)) handler =
  ((t ++ fst (handler e))%list, snd (handler e)).
Proof. unfold try_except. now destruct (handler e). Qed.

Lemma catchable_ret (a : A) : catchable (ret a).
Proof. intros c; discriminate. Qed.

Lemma catchable_raise_exc (e : exn) : catchable (@raise A (Exc e)).
Proof. intros c; discriminate. Qed.

Lemma catchable_bind (m : run A) (k : A -> run B) :
  catchable m -> (forall a, catchable (k a)) -> catchable (bind m k).
Proof.
  intros Hm Hk c. unfold bind. destruct m as [t [a|r]]; simpl.
  - specialize (Hk a c). now destruct (k a).
  - intros [= ->]. now apply (Hm c).
Qed.

Lemma catchable_try_except (m : run A) (handler : exn -> run A) :
  catchable m -> (forall e, catchable (handler e)) ->
  catchable (try_except m handler).
Proof.
  intros Hm Hh c. unfold try_except. destruct m as [t [a|[e|c']]]; simpl.
  - discriminate.
  - specialize (Hh e c). now destruct (handler e).
  - apply (Hm c).
Qed.

(** Events of a kind stay of that kind under sequencing and handling. *)
Lemma confined_bind (P : event -> Prop) (m : run A) (k : A -> run B) :
  Forall P (fst m) -> (forall a, Forall P (fst (k a))) ->
  Forall P (fst (bind m k)).
Proof.
  intros Hm Hk. unfold bind. destruct m as [t [a|r]]; [|exact Hm].
  specialize (Hk a). destruct (k a) as [t' r']. cbn in *.
  apply Forall_app. now split.
Qed.

Lemma confined_try_except (P : event -> Prop) (m : run A) handler :
  Forall P (fst m) -> (forall e, Forall P (fst (handler e))) ->
  Forall P (fst (try_except m handler)).
Proof.
  intros Hm Hh. unfold try_except. destruct m as [t [a|[e|c]]]; try exact Hm.
  specialize (Hh e). destruct (handler e) as [t' r']. cbn in *.
  apply Forall_app. now split.
Qed.
End RunLaws.

Section PrintLaws.
Variable h : Host.

Lemma print_ok msg :
  forallb (piece_printable h) msg = true ->
  print h msg = ([Print msg], Return tt).
Proof. intros H. unfold print. now rewrite H. Qed.

Lemma print_fails msg :
  forallb (piece_printable h) msg = false ->
  print h msg = ([], Raise (Exc (print_error h msg))).
Proof. intros H. unfold print. now rewrite H. Qed.

(** A [print] leaves its line in the trace, or nothing. *)
Lemma print_confined (P : event -> Prop) msg :
  P (Print msg) -> Forall P (fst (print h msg)).
Proof.
  intros HP. unfold print.
  destruct (forallb _ msg); cbn; [now constructor | constructor].
Qed.

Lemma catchable_print msg : catchable (print h msg).
Proof. intros c. unfold print. now destruct (forallb _ msg). Qed.
End PrintLaws.

Lemma catchable_emit ev : catchable (emit ev).
Proof. intros c; discriminate. Qed.

Lemma catchable_host_call ev r : catchable (host_call ev r).
Proof. intros c. now destruct r. Qed.

Lemma catchable_py_get v key dflt : catchable (py_get v key dflt).
Proof. intros c. now destruct v. Qed.

Lemma catchable_py_lower h v : catchable (py_lower h v).
Proof. intros c. now destruct v. Qed.

Lemma catchable_json_loads h s : catchable (json_loads h s).
Proof. intros c. unfold json_loads. now destruct (host_json_loads h s). Qed.

Lemma catchable_webbrowser_open h url : catchable (webbrowser_open h url).
Proof. apply catchable_host_call. Qed.

Lemma catchable_time_sleep n : catchable (time_sleep n).
Proof. apply catchable_emit. Qed.

Lemma catchable_pyautogui_write h v : catchable (pyautogui_write h v).
Proof. apply catchable_host_call. Qed.

Lemma catchable_pyautogui_press h k : catchable (pyautogui_press h k).
Proof. apply catchable_host_call. Qed.

Lemma catchable_subprocess_Popen h args : catchable (subprocess_Popen h args).
Proof. apply catchable_host_call. Qed.

Create HintDb catchable.
#[local] Hint Resolve catchable_ret catchable_raise_exc catchable_emit
  catchable_print catchable_host_call catchable_py_get catchable_py_lower
  catchable_json_loads catchable_webbrowser_open catchable_time_sleep
  catchable_pyautogui_write catchable_pyautogui_press
  catchable_subprocess_Popen : catchable.

Ltac catchable_tac :=
  repeat first
    [ progress intros
    | solve [auto with catchable]
    | match goal with
      | |- catchable (if ?b then _ else _) => destruct b
      | |- catchable (let _ := _ in _) => cbv zeta
      | |- catchable (bind _ _) => apply catchable_bind
      | |- catchable (try_except _ _) => apply catchable_try_except
      end ].

Lemma catchable_search_google h v : catchable (automation.search_google h v).
Proof. unfold automation.search_google. catchable_tac. Qed.

Lemma catchable_open_web_app h v : catchable (automation.open_web_app h v).
Proof. unfold automation.open_web_app. catchable_tac. Qed.

Lemma catchable_open_desktop_app h v : catchable (automation.open_desktop_app h v).
Proof. unfold automation.open_desktop_app. catchable_tac. Qed.

#[local] Hint Resolve catchable_search_google catchable_open_web_app
  catchable_open_desktop_app : catchable.

Lemma catchable_run_operation h op v : catchable (run_operation h op v).
Proof. destruct op; simpl; auto with catchable. Qed.

Lemma catchable_process_action_body h s :
  catchable (action_processor.process_action_body h s).
Proof. unfold action_processor.process_action_body. catchable_tac. Qed.

Lemma catchable_process_action_handler h s e :
  catchable (action_processor.process_action_handler h s e).
Proof.
  unfold action_processor.process_action_handler.
  destruct (exn_class_of e); catchable_tac.
Qed.

(** ** Runs of the three operations, call by call *)

#[local] Arguments bind : simpl never.
#[local] Arguments ret : simpl never.
#[local] Arguments print : simpl never.
#[local] Arguments try_except : simpl never.
#[local] Arguments printable : simpl never.
#[local] Arguments str_lower : simpl never.
#[local] Arguments automation.search_google : simpl never.
#[local] Arguments automation.open_web_app : simpl never.
#[local] Arguments automation.open_desktop_app : simpl never.

(** One step of a run whose head is known. *)
Ltac run_simpl :=
  unfold ret, raise, emit;
  repeat (first
            [ rewrite bind_return | rewrite bind_raised
            | rewrite try_except_return | rewrite try_except_exc ];
          cbn [fst snd app]);
  cbn [fst snd app].

(** Whether a line is printable, from what is known of its values. *)
Ltac printable_tac :=
  cbn [forallb piece_printable];
  repeat match goal with
         | H : printable _ _ = _ |- _ => rewrite H; clear H
         end;
  rewrite ?andb_true_r; reflexivity.

(** Decide the next [print] of the goal on whether the console can encode
    the value [v] it formats. *)
Ltac print_on v :=
  let Hp := fresh "Hp" in
  destruct (printable _ v) eqn:Hp;
  [ rewrite print_ok by printable_tac
  | rewrite print_fails by printable_tac ];
  unfold raise; run_simpl.

(** A [print] of literal text and of values known to be printable. *)
Ltac print_now := rewrite print_ok by printable_tac; run_simpl.

(** A [print] of a value known not to be printable. *)
Ltac print_not := rewrite print_fails by printable_tac; unfold raise; run_simpl.

(** [search_google] stops at its first line when the console cannot encode
    the query, then at the first host call that raises, and returns [True]
    when none does. *)
Lemma search_google_run h query :
  automation.search_google h query =
  let first_line :=
    [Lit "[JARVIS] Searching Google for: '"; Fmt query; Lit "'"] in
  let started :=
    [Invoke SearchGoogle query; Print first_line;
     WebbrowserOpen (PStr "https://www.google.com")] in
  if printable h query then
    match host_webbrowser_open h (PStr "https://www.google.com") with
    | Some f => (started, Raise (Exc (exn_of_failure f)))
    | None =>
      match host_pyautogui_write h query with
      | Some f => ((started ++ [TimeSleep 2; PyautoguiWrite query])%list,
                   Raise (Exc (exn_of_failure f)))
      | None =>
        match host_pyautogui_press h "enter" with
        | Some f =>
            ((started ++ [TimeSleep 2; PyautoguiWrite query;
                          PyautoguiPress "enter"])%list,
             Raise (Exc (exn_of_failure f)))
        | None =>
            ((started ++ [TimeSleep 2; PyautoguiWrite query;
                          PyautoguiPress "enter";
                          Print [Lit "[JARVIS] Search completed for: '";
                                 Fmt query; Lit "'"]])%list,
             Return true)
        end
      end
    end
  else ([Invoke SearchGoogle query], Raise (Exc (print_error h first_line))).
Proof.
  cbv zeta. unfold automation.search_google, emit, webbrowser_open, time_sleep,
    pyautogui_write, pyautogui_press, host_call, emit.
  run_simpl. print_on query; [|reflexivity].
  destruct (host_webbrowser_open h _); run_simpl; [reflexivity|].
  destruct (host_pyautogui_write h query); run_simpl; [reflexivity|].
  destruct (host_pyautogui_press h "enter"); run_simpl; [reflexivity|].
  print_now. reflexivity.
Qed.

Lemma open_web_app_run h url :
  automation.open_web_app h url =
  let first_line := [Lit "[JARVIS] Opening web app: "; Fmt url] in
  if printable h url then
    match host_webbrowser_open h url with
    | Some f =>
        ([Invoke OpenWebApp url; Print first_line; WebbrowserOpen url],
         Raise (Exc (exn_of_failure f)))
    | None =>
        ([Invoke OpenWebApp url; Print first_line; WebbrowserOpen url;
          Print [Lit "[JARVIS] Opened web app: "; Fmt url]],
         Return true)
    end
  else ([Invoke OpenWebApp url], Raise (Exc (print_error h first_line))).
Proof.
  cbv zeta. unfold automation.open_web_app, emit, webbrowser_open, host_call.
  run_simpl. print_on url; [|reflexivity].
  destruct (host_webbrowser_open h url); run_simpl; [reflexivity|].
  print_now. reflexivity.
Qed.

(** The [if]/[elif] chain of [open_desktop_app] creates the process of
    [launch_command]. *)
Lemma launch_chain h name :
  (if name =? "spotify" then
     let app_path :=
       host_expanduser h "~\AppData\Roaming\Spotify\Spotify.exe" in
     subprocess_Popen h [app_path] ;; ret true
   else if name =? "notepad" then
     subprocess_Popen h ["notepad"] ;; ret true
   else if name =? "calculator" then
     subprocess_Popen h ["calc"] ;; ret true
   else if (name =? "vscode") || (name =? "visual studio code") then
     subprocess_Popen h ["code"] ;; ret true
   else if (name =? "explorer") || (name =? "file explorer") then
     subprocess_Popen h ["explorer"] ;; ret true
   else
     subprocess_Popen h [name] ;; ret true)
  = (subprocess_Popen h (launch_command h name) ;; ret true).
Proof.
  unfold launch_command, alias_table. cbn [assoc].
  destruct (name =? "spotify"); [reflexivity|].
  destruct (name =? "notepad"); [reflexivity|].
  destruct (name =? "calculator"); [reflexivity|].
  destruct (name =? "vscode"); [reflexivity|].
  destruct (name =? "visual studio code"); [reflexivity|].
  destruct (name =? "explorer"); [reflexivity|].
  destruct (name =? "file explorer"); reflexivity.
Qed.

(** On a [str], [open_desktop_app] prints its first line, creates the process
    of [launch_command] for the lower-cased name, and prints the outcome.  A
    line the console cannot encode ends the run with the exception of
    [print]: the first line before any process is created, the line of
    success or of failure after. *)
Lemma open_desktop_app_run h app_name :
  automation.open_desktop_app h (PStr app_name) =
  let name := str_lower h app_name in
  let cmd := launch_command h name in
  let first_line :=
    [Lit "[JARVIS] Launching desktop app: "; Fmt (PStr app_name)] in
  let success_line :=
    [Lit "[JARVIS] Successfully launched: "; Fmt (PStr name)] in
  let error_line (text : string) :=
    [Lit "[JARVIS] Error launching "; Fmt (PStr name); Lit ": ";
     Fmt (PStr text)] in
  let started :=
    [Invoke OpenDesktopApp (PStr app_name); Print first_line;
     SubprocessPopen cmd] in
  if printable h (PStr app_name) then
    match host_subprocess_Popen h cmd with
    | None =>
        if printable h (PStr name)
        then ((started ++ [Print success_line])%list, Return true)
        else (started,
              Raise (Exc (print_error h
                            (error_line (exn_str (print_error h success_line))))))
    | Some f =>
        if printable h (PStr name) && printable h (PStr (failure_str f))
        then ((started ++ [Print (error_line (failure_str f))])%list,
              Return false)
        else (started, Raise (Exc (print_error h (error_line (failure_str f)))))
    end
  else ([Invoke OpenDesktopApp (PStr app_name)],
        Raise (Exc (print_error h first_line))).
Proof.
  cbv zeta. unfold automation.open_desktop_app, emit.
  run_simpl. print_on (PStr app_name); [|reflexivity].
  cbn [py_lower]. run_simpl. rewrite launch_chain.
  unfold subprocess_Popen, host_call.
  destruct (host_subprocess_Popen h _) as [f|]; run_simpl.
  - unfold exn_of_failure. cbn [exn_str].
    destruct (printable h (PStr (str_lower h app_name))) eqn:Hn; cbn [andb].
    + print_on (PStr (failure_str f)); reflexivity.
    + print_not. reflexivity.
  - print_on (PStr (str_lower h app_name)); [reflexivity|].
    print_not. reflexivity.
Qed.

(** On anything else [lower] is missing, before any process is created. *)
Lemma open_desktop_app_not_str h v :
  (forall s, v <> PStr s) ->
  automation.open_desktop_app h v =
  let first_line := [Lit "[JARVIS] Launching desktop app: "; Fmt v] in
  if printable h v then
    ([Invoke OpenDesktopApp v; Print first_line],
     Raise (Exc (Exn AttributeError
                     ("'" ++ type_name v ++ "' object has no attribute 'lower'"))))
  else ([Invoke OpenDesktopApp v], Raise (Exc (print_error h first_line))).
Proof.
  intros Hv. cbv zeta. unfold automation.open_desktop_app, emit.
  run_simpl. print_on v; [|reflexivity].
  destruct v; try reflexivity. now contradiction (Hv s).
Qed.

(** ** The JSON dispatcher *)

(** The [except] clauses print one line and return [False], or end with the
    exception of that [print]. *)
Lemma handler_run h s e :
  action_processor.process_action_handler h s e =
  let line :=
    match exn_class_of e with
    | JSONDecodeError => [Lit "Error: Invalid JSON format: "; Fmt (PStr s)]
    | _ => [Lit "Error processing action: "; Fmt (PStr (exn_str e))]
    end in
  if forallb (piece_printable h) line then ([Print line], Return false)
  else ([], Raise (Exc (print_error h line))).
Proof.
  cbv zeta. unfold action_processor.process_action_handler, print.
  destruct (exn_class_of e);
    match goal with |- context [forallb ?f ?l] => destruct (forallb f l) end;
    run_simpl; reflexivity.
Qed.

(** When the console can encode the text of the exception, the second clause
    prints it. *)
Lemma handler_prints h s e :
  exn_class_of e <> JSONDecodeError ->
  printable h (PStr (exn_str e)) = true ->
  action_processor.process_action_handler h s e =
  ([Print [Lit "Error processing action: "; Fmt (PStr (exn_str e))]],
   Return false).
Proof.
  intros Hc Hp. rewrite handler_run. cbv zeta.
  destruct (exn_class_of e); try (now contradiction Hc);
    cbn [forallb piece_printable]; rewrite Hp; reflexivity.
Qed.

(** The text of a missing attribute is ASCII. *)
Lemma attribute_error_plain h v attr :
  is_ascii attr = true ->
  printable h (PStr ("'" ++ type_name v ++ "' object has no attribute '"
                         ++ attr ++ "'")) = true.
Proof.
  intros Ha. unfold printable.
  assert (Hcat : forall a b, is_ascii a = true -> is_ascii b = true ->
                             is_ascii (a ++ b) = true).
  { induction a as [|c a IH]; intros b Ha' Hb; [exact Hb|].
    cbn [is_ascii append] in *. apply andb_prop in Ha' as [Hc Ha'].
    apply andb_true_intro. split; [exact Hc | now apply IH]. }
  assert (Hplain : plain (PStr ("'" ++ type_name v
                                  ++ "' object has no attribute '" ++ attr ++ "'"))
                   = true).
  { cbn [plain]. apply (Hcat "'"); [reflexivity|].
    apply Hcat; [now destruct v|].
    apply (Hcat "' object has no attribute '"); [reflexivity|].
    now apply Hcat. }
  now rewrite Hplain.
Qed.

Lemma refusal_handler h s e :
  refusal (action_processor.process_action_handler h s e).
Proof.
  rewrite handler_run. cbv zeta.
  destruct (forallb _ _); split; cbn; try discriminate;
    repeat constructor.
Qed.

(** A refusal entered no operation and called nothing of the host. *)
Lemma refusal_silent (m : run bool) :
  refusal m ->
  invocations (fst m) = [] /\ host_effects (fst m) = [] /\ snd m <> Return true.
Proof.
  intros [Ht Hr]. repeat split; [| |exact Hr].
  - induction Ht as [|ev t Hev _ IH]; [reflexivity|].
    destruct ev; try contradiction. exact IH.
  - induction Ht as [|ev t Hev _ IH]; [reflexivity|].
    destruct ev; try contradiction. exact IH.
Qed.

Lemma refusal_try_except (m : run bool) handler :
  refusal m -> catchable m -> (forall e, refusal (handler e)) ->
  refusal (try_except m handler).
Proof.
  intros [Ht Hr] Hc Hh. split.
  - apply confined_try_except; [exact Ht|]. intros e. apply (Hh e).
  - destruct m as [t [b|[e|c]]].
    + exact Hr.
    + rewrite try_except_exc. apply (Hh e).
    + now contradiction (Hc c).
Qed.

(** A line and [return False]. *)
Lemma refusal_print_false h msg : refusal (print h msg ;; ret false).
Proof.
  unfold print. destruct (forallb _ msg); run_simpl; split; cbn;
    try discriminate; repeat constructor.
Qed.

Lemma refusal_raise e : refusal (raise (Exc e)).
Proof. split; [constructor | discriminate]. Qed.

(** A well-formed descriptor reaches its operation, under the two [except]
    clauses. *)
Lemma process_action_dispatch h s op v :
  well_formed h s op v ->
  action_processor.process_action h s =
  try_except (run_operation h op v) (action_processor.process_action_handler h s).
Proof.
  intros (d & p & Hl & Ha & Hp & Hk & Ht).
  unfold action_processor.process_action, action_processor.process_action_body,
    json_loads.
  rewrite Hl, bind_ret_l. cbn [py_get]. rewrite Ha, Hp. cbn [default from_option].
  rewrite !bind_ret_l.
  destruct op; cbn in Hk |- *; rewrite Hk; cbn [default from_option];
    rewrite bind_ret_l; unfold id; rewrite Ht; reflexivity.
Qed.

(** Once the [action] names an operation, what is left of the body is the
    lookup of the required key and the test on it. *)
Lemma process_action_recognized h s d op :
  host_json_loads h s = inr (PDict d) ->
  d !! "action" = Some (PStr (action_name op)) ->
  action_processor.process_action h s =
  try_except
    (v <- py_get (default (PDict ∅) (d !! "params")) (required_key op) PNone ;;
     if negb (truthy v)
     then print h [Lit (missing_parameter_message op)] ;; ret false
     else run_operation h op v)
    (action_processor.process_action_handler h s).
Proof.
  intros Hl Ha.
  unfold action_processor.process_action, action_processor.process_action_body,
    json_loads.
  rewrite Hl, bind_ret_l. cbn [py_get]. rewrite Ha. cbn [default from_option].
  rewrite !bind_ret_l. destruct op; reflexivity.
Qed.

(** Split a run on the answers of the host that decide it. *)
Ltac split_run :=
  repeat match goal with
         | |- context [if ?b then _ else _] => destruct b
         | |- context [match ?x with Some _ => _ | None => _ end] => destruct x
         end.

(** An operation enters [automation.py] once, whatever the host does. *)
Lemma invocations_operation h op v :
  invocations (fst (run_operation h op v)) = [(op, v)].
Proof.
  destruct op; cbn [run_operation].
  - rewrite search_google_run. cbv zeta. split_run; reflexivity.
  - rewrite open_web_app_run. cbv zeta. split_run; reflexivity.
  - destruct v;
      try (rewrite open_desktop_app_not_str by discriminate; cbv zeta;
           split_run; reflexivity).
    rewrite open_desktop_app_run. cbv zeta. split_run; reflexivity.
Qed.

(** Whatever the host does, a call of an operation under the handler leaves
    one entry into [automation.py] in the trace. *)
Lemma invocations_run_operation h s op v :
  invocations
    (fst (try_except (run_operation h op v)
                     (action_processor.process_action_handler h s)))
  = [(op, v)].
Proof.
  pose proof (invocations_operation h op v) as Hi.
  destruct (run_operation h op v) as [t [b|[e|c]]]; try exact Hi.
  rewrite try_except_exc. cbn [fst] in *.
  unfold invocations in *. rewrite omap_app, Hi.
  destruct (refusal_silent _ (refusal_handler h s e)) as [Hq _].
  unfold invocations in Hq. now rewrite Hq.
Qed.

(** The exceptions of an operation are not of the class the first [except]
    clause stops. *)
Lemma run_operation_exn_class h op v t e :
  run_operation h op v = (t, Raise (Exc e)) ->
  exn_class_of e <> JSONDecodeError.
Proof.
  destruct op; cbn [run_operation].
  - rewrite search_google_run. cbv zeta. split_run; intros [= _ <-]; discriminate.
  - rewrite open_web_app_run. cbv zeta. split_run; intros [= _ <-]; discriminate.
  - destruct v;
      try (rewrite open_desktop_app_not_str by discriminate; cbv zeta;
           split_run; intros [= _ <-]; discriminate).
    rewrite open_desktop_app_run. cbv zeta.
    split_run; intros [= _ <-]; discriminate.
Qed.

(** C1: a descriptor whose [action] is one of the three kinds and whose
    required parameter is present and non-empty enters [automation.py] once,
    at the operation of that kind with that parameter, and what the operation
    returns is what [process_action] returns. *)
Theorem process_action_invokes_one_operation h s op v :
  well_formed h s op v ->
  invocations (fst (action_processor.process_action h s)) = [(op, v)] /\
  (forall t b, run_operation h op v = (t, Return b) ->
     action_processor.process_action h s = (t, Return b)).
Proof.
  intros Hwf. rewrite (process_action_dispatch _ _ _ _ Hwf). split.
  - apply invocations_run_operation.
  - intros t b ->. reflexivity.
Qed.

Lemma scenario_search_well_formed :
  well_formed Scenario.host
    (Scenario.descriptor_text "search_google" "query" "weather today")
    SearchGoogle (PStr "weather today").
Proof.
  exists (<["action" := PStr "search_google"]>
            (<["params" := PDict (<["query" := PStr "weather today"]> ∅)]> ∅)),
         (<["query" := PStr "weather today"]> ∅).
  repeat split; vm_compute; reflexivity.
Defined.

Lemma process_action_invokes_one_operation_witness :
  invocations
    (fst (action_processor.process_action Scenario.host
            (Scenario.descriptor_text "search_google" "query" "weather today")))
  = [(SearchGoogle, PStr "weather today")] /\
  snd (action_processor.process_action Scenario.host
         (Scenario.descriptor_text "search_google" "query" "weather today"))
  = Return true.
Proof.
  destruct (process_action_invokes_one_operation _ _ _ _
              scenario_search_well_formed) as [H1 H2].
  split; [exact H1|].
  erewrite H2; reflexivity.
Defined.

(** C4: a descriptor of a recognized kind whose required parameter is absent
    or empty is refused with the line that names the missing field, and
    [False]: no operation is entered, no browser opened, no process created. *)
Theorem process_action_rejects_missing_parameter h s op :
  lacks_parameter h s op ->
  let r := action_processor.process_action h s in
  r = ([Print [Lit (missing_parameter_message op)]], Return false) /\
  invocations (fst r) = [] /\
  host_effects (fst r) = [].
Proof.
  intros (d & p & Hl & Ha & Hp & Hk) r.
  assert (Hr : r = ([Print [Lit (missing_parameter_message op)]], Return false)).
  { subst r.
    assert (Hq : truthy (default PNone (p !! required_key op)) = false).
    { destruct Hk as [->|(v & -> & Hv)]; [reflexivity|exact Hv]. }
    assert (Hp' : default (PDict ∅) (d !! "params") = PDict p).
    { destruct Hp as [[-> ->]| ->]; reflexivity. }
    rewrite (process_action_recognized _ _ _ _ Hl Ha), Hp'.
    cbn [py_get]. rewrite bind_ret_l, Hq. cbn [negb].
    print_now. reflexivity. }
  rewrite Hr. repeat split.
Qed.

Lemma process_action_rejects_missing_parameter_witness :
  action_processor.process_action Scenario.host
    (Scenario.descriptor_text "search_google" "query" "")
  = ([Print [Lit "Error: No query provided for search_google action"]],
     Return false) /\
  action_processor.process_action Scenario.host
    (Scenario.bare_text "search_google")
  = ([Print [Lit "Error: No query provided for search_google action"]],
     Return false).
Proof.
  split.
  - refine (proj1 (process_action_rejects_missing_parameter Scenario.host
                     (Scenario.descriptor_text "search_google" "query" "")
                     SearchGoogle _)).
    exists (<["action" := PStr "search_google"]>
              (<["params" := PDict (<["query" := PStr ""]> ∅)]> ∅)),
           (<["query" := PStr ""]> ∅).
    repeat split; try (vm_compute; reflexivity).
    + right. vm_compute. reflexivity.
    + right. exists (PStr ""). split; vm_compute; reflexivity.
  - refine (proj1 (process_action_rejects_missing_parameter Scenario.host
                     (Scenario.bare_text "search_google") SearchGoogle _)).
    exists (<["action" := PStr "search_google"]> ∅), ∅.
    repeat split; try (vm_compute; reflexivity).
    + left. split; vm_compute; reflexivity.
    + left. vm_compute. reflexivity.
Defined.

(** C10: a text that decodes to a value that is not an object (a list, a
    number, a string, ...) is answered with [False]: the [AttributeError] of
    the missing [get] is stopped by the second [except] clause, before any
    operation is entered. *)
Theorem process_action_rejects_non_object h s v :
  host_json_loads h s = inr v ->
  (forall d, v <> PDict d) ->
  let r := action_processor.process_action h s in
  r = ([Print [Lit "Error processing action: ";
               Fmt (PStr ("'" ++ type_name v ++ "' object has no attribute 'get'"))]],
       Return false) /\
  invocations (fst r) = [] /\
  host_effects (fst r) = [].
Proof.
  intros Hl Hv r. subst r.
  assert (Hr : action_processor.process_action h s =
    ([Print [Lit "Error processing action: ";
             Fmt (PStr ("'" ++ type_name v ++ "' object has no attribute 'get'"))]],
     Return false)).
  { unfold action_processor.process_action,
      action_processor.process_action_body, json_loads.
    rewrite Hl, bind_ret_l.
    destruct v; try (now contradiction (Hv d));
      cbn [py_get]; run_simpl;
      (rewrite handler_prints;
       [reflexivity | discriminate
       | apply (attribute_error_plain h _ "get"); reflexivity]). }
  rewrite Hr. now repeat split.
Qed.

Lemma process_action_rejects_non_object_witness :
  action_processor.process_action Scenario.host "[1, 2]"
  = ([Print [Lit "Error processing action: ";
             Fmt (PStr "'list' object has no attribute 'get'")]],
     Return false).
Proof.
  refine (proj1 (process_action_rejects_non_object Scenario.host "[1, 2]"
                   (PList [PInt 1; PInt 2]) _ _)).
  - vm_compute. reflexivity.
  - discriminate.
Defined.

(** What is left of [process_action] on an object whose [action] is not one
    of the three kinds (an absent [action] reads as [None]). *)
Lemma process_action_unrecognized h s d :
  host_json_loads h s = inr (PDict d) ->
  recognized (default PNone (d !! "action")) = false ->
  action_processor.process_action h s =
  try_except
    (print h (if truthy (default PNone (d !! "action"))
              then [Lit "Error: Unknown action type '";
                    Fmt (default PNone (d !! "action")); Lit "'"]
              else [Lit "Error: No action specified in the JSON"]) ;;
     ret false)
    (action_processor.process_action_handler h s).
Proof.
  intros Hl Hr.
  unfold action_processor.process_action, action_processor.process_action_body,
    json_loads.
  rewrite Hl, bind_ret_l. cbn [py_get]. rewrite !bind_ret_l.
  unfold recognized in Hr.
  apply orb_false_elim in Hr as [Hr H3]. apply orb_false_elim in Hr as [H1 H2].
  rewrite H1, H2, H3.
  now destruct (truthy (default PNone (d !! "action"))).
Qed.




(** What [process_action] does with a text that [json.loads] refuses: the
    first [except] clause prints the text itself. *)
Lemma process_action_invalid_json h s e :
  host_json_loads h s = inl e ->
  exn_class_of e = JSONDecodeError ->
  action_processor.process_action h s =
  if printable h (PStr s)
  then ([Print [Lit "Error: Invalid JSON format: "; Fmt (PStr s)]], Return false)
  else ([], Raise (Exc (print_error h
                          [Lit "Error: Invalid JSON format: "; Fmt (PStr s)]))).
Proof.
  intros Hl He.
  unfold action_processor.process_action, action_processor.process_action_body,
    json_loads.
  rewrite Hl. run_simpl. rewrite handler_run, He. cbv zeta.
  cbn [forallb piece_printable]. rewrite andb_true_r.
  now destruct (printable h (PStr s)).
Qed.

(** C6 as stated fails: a text can be no valid JSON and still be decoded.
    [json.loads] reads [NaN] as a float, so the search whose query is [NaN]
    is dispatched like any other: [search_google] is entered and the browser
    opened. *)
Lemma text_that_is_not_json_is_dispatched :
  ~ (forall h s,
       valid_json s = false ->
       let r := action_processor.process_action h s in
       snd r = Return false /\
       invocations (fst r) = [] /\
       host_effects (fst r) = []).
Proof.
  intros H.
  destruct (H Edge.host Edge.nan_query_text) as (_ & Hi & _).
  - vm_compute. reflexivity.
  - vm_compute in Hi. discriminate.
Qed.

Example nan_query_run :
  valid_json Edge.nan_query_text = false /\
  action_processor.process_action Edge.host Edge.nan_query_text
  = ([Invoke SearchGoogle (PFloat S754_nan);
      Print [Lit "[JARVIS] Searching Google for: '"; Fmt (PFloat S754_nan); Lit "'"];
      WebbrowserOpen (PStr "https://www.google.com");
      TimeSleep 2;
      PyautoguiWrite (PFloat S754_nan);
      Print [Lit "Error processing action: ";
             Fmt (PStr "'float' object is not iterable")]],
     Return false).
Proof. split; vm_compute; reflexivity. Qed.

(** C6, amended: a text that [json.loads] refuses enters no operation, calls
    nothing of the host and does not make [process_action] return [True].
    When the refusal is a [JSONDecodeError] and the console can print the
    text, the run is the line [Invalid JSON format], with the text, and
    [False]; when it is another exception whose text the console can print,
    the run is the line [Error processing action], with that text, and
    [False].  The script ends with exit status 1. *)
Theorem process_action_rejects_invalid_json h s e :
  host_json_loads h s = inl e ->
  let r := action_processor.process_action h s in
  invocations (fst r) = [] /\
  host_effects (fst r) = [] /\
  snd r <> Return true /\
  (exn_class_of e = JSONDecodeError -> printable h (PStr s) = true ->
   r = ([Print [Lit "Error: Invalid JSON format: "; Fmt (PStr s)]],
        Return false)) /\
  (exn_class_of e <> JSONDecodeError -> printable h (PStr (exn_str e)) = true ->
   r = ([Print [Lit "Error processing action: "; Fmt (PStr (exn_str e))]],
        Return false)) /\
  (forall prog rest,
     exit_code (action_processor.main h (prog :: s :: rest)) = 1%Z).
Proof.
  intros Hl r.
  assert (Hr : r = action_processor.process_action_handler h s e).
  { subst r.
    unfold action_processor.process_action,
      action_processor.process_action_body, json_loads.
    rewrite Hl. run_simpl.
    now destruct (action_processor.process_action_handler h s e). }
  rewrite Hr.
  destruct (refusal_silent _ (refusal_handler h s e)) as (Hi & He & Hn).
  split; [exact Hi|]. split; [exact He|]. split; [exact Hn|].
  split; [|split].
  - intros Hc Hp. rewrite handler_run, Hc. cbv zeta.
    cbn [forallb piece_printable]. now rewrite Hp.
  - intros Hc Hp. now apply handler_prints.
  - reflexivity.
Qed.

Lemma process_action_rejects_invalid_json_witness :
  action_processor.process_action Scenario.host "not valid json"
  = ([Print [Lit "Error: Invalid JSON format: "; Fmt (PStr "not valid json")]],
     Return false) /\
  exit_code (action_processor.main Scenario.host
               ["action_processor.py"; "not valid json"]) = 1%Z.
Proof.
  destruct (process_action_rejects_invalid_json Scenario.host "not valid json"
              (Exn JSONDecodeError "Expecting value: line 1 column 1 (char 0)"))
    as (_ & _ & _ & Hr & _ & Hm).
  - vm_compute. reflexivity.
  - split; [apply Hr; reflexivity | apply Hm].
Defined.

(** C7 fails: the [print] inside the first [except] clause is not guarded.
    When [json.loads] refuses a text that the console cannot encode, the
    [UnicodeEncodeError] of that [print] leaves [process_action]. *)
Theorem process_action_propagates_print_error h s e :
  host_json_loads h s = inl e ->
  exn_class_of e = JSONDecodeError ->
  printable h (PStr s) = false ->
  action_processor.process_action h s =
  ([], Raise (Exc (print_error h
                     [Lit "Error: Invalid JSON format: "; Fmt (PStr s)]))).
Proof.
  intros Hl He Hp. now rewrite (process_action_invalid_json _ _ _ Hl He), Hp.
Qed.

Lemma process_action_propagates_print_error_witness :
  exists e,
    snd (action_processor.process_action Scenario.ascii_host
           Scenario.not_json_coffee) = Raise (Exc e) /\
    exn_class_of e = UnicodeEncodeError.
Proof.
  eexists. split.
  - rewrite (process_action_propagates_print_error Scenario.ascii_host
               Scenario.not_json_coffee
               (Exn JSONDecodeError "Expecting value: line 1 column 1 (char 0)"));
      [reflexivity | vm_compute; reflexivity | reflexivity
      | vm_compute; reflexivity].
  - reflexivity.
Defined.

(** The same text on the two consoles: refused with its line where the
    console encodes it, an exception of [print] where it does not. *)
Example not_json_coffee_on_two_consoles :
  is_ascii Scenario.not_json_coffee = false /\
  action_processor.process_action Scenario.host Scenario.not_json_coffee
  = ([Print [Lit "Error: Invalid JSON format: ";
             Fmt (PStr Scenario.not_json_coffee)]],
     Return false) /\
  action_processor.process_action Scenario.ascii_host Scenario.not_json_coffee
  = ([], Raise (Exc (print_error Scenario.ascii_host
                       [Lit "Error: Invalid JSON format: ";
                        Fmt (PStr Scenario.not_json_coffee)]))).
Proof. repeat split; vm_compute; reflexivity. Qed.

(** ** The Executor *)

Lemma launch_command_alias h k cmd :
  In (k, cmd) (alias_table h) -> launch_command h k = cmd.
Proof.
  unfold launch_command, alias_table. simpl.
  intros [H|[H|[H|[H|[H|[H|[H|[]]]]]]]]; inversion H; subst; reflexivity.
Qed.





Example open_desktop_app_aliases h :
  launch_command h "spotify" = [host_expanduser h "~\AppData\Roaming\Spotify\Spotify.exe"] /\
  launch_command h "notepad" = ["notepad"] /\
  launch_command h "calculator" = ["calc"] /\
  launch_command h "vscode" = ["code"] /\
  launch_command h "visual studio code" = ["code"] /\
  launch_command h "explorer" = ["explorer"] /\
  launch_command h "file explorer" = ["explorer"] /\
  launch_command h "firefox" = ["firefox"].
Proof. repeat split. Qed.

Example open_desktop_app_launch_error :
  automation.open_desktop_app Scenario.host (PStr "no_such_app")
  = ([Invoke OpenDesktopApp (PStr "no_such_app");
      Print [Lit "[JARVIS] Launching desktop app: "; Fmt (PStr "no_such_app")];
      SubprocessPopen ["no_such_app"];
      Print [Lit "[JARVIS] Error launching "; Fmt (PStr "no_such_app"); Lit ": ";
             Fmt (PStr "[WinError 2] The system cannot find the file specified")]],
     Return false).
Proof. vm_compute. reflexivity. Qed.



(** ** The two entry points *)

(** C8: with fewer than two arguments after the program name, the runner
    prints the usage error and exits with status 1; no operation is entered
    and the host is not called. *)
Theorem automation_runner_main_usage_error h argv :
  (length argv < 3)%nat ->
  let r := automation_runner.main h argv in
  r = ([Print [Lit "Error: Insufficient arguments"];
        Print [Lit "Usage: python automation_runner.py <command_type> <parameter>"]],
       Raise (SystemExit 1)) /\
  exit_code r = 1%Z /\
  invocations (fst r) = [] /\
  host_effects (fst r) = [].
Proof.
  intros Hlen r. subst r. unfold automation_runner.main.
  destruct (Nat.ltb_spec (length argv) 3) as [_|Hge]; [|lia].
  do 2 print_now. unfold sys_exit. run_simpl. now repeat split.
Qed.

Lemma automation_runner_main_usage_error_witness :
  automation_runner.main Scenario.host ["automation_runner.py"; "open_desktop_app"]
  = ([Print [Lit "Error: Insufficient arguments"];
      Print [Lit "Usage: python automation_runner.py <command_type> <parameter>"]],
     Raise (SystemExit 1)) /\
  exit_code (automation_runner.main Scenario.host
               ["automation_runner.py"; "open_desktop_app"]) = 1%Z.
Proof.
  destruct (automation_runner_main_usage_error Scenario.host
              ["automation_runner.py"; "open_desktop_app"]) as (H1 & H2 & _).
  - simpl. lia.
  - split; [exact H1 | exact H2].
Defined.

(** C2 fails in two-argument mode: when process creation raises,
    [open_desktop_app] prints the reason and returns [False], the JSON entry
    point exits with status 1, but the runner exits with status 0. *)
Theorem automation_runner_main_ignores_launch_error :
  snd (automation.open_desktop_app Scenario.host (PStr "no_such_app"))
  = Return false /\
  automation_runner.main Scenario.host
    ["automation_runner.py"; "open_desktop_app"; "no_such_app"]
  = ([Invoke OpenDesktopApp (PStr "no_such_app");
      Print [Lit "[JARVIS] Launching desktop app: "; Fmt (PStr "no_such_app")];
      SubprocessPopen ["no_such_app"];
      Print [Lit "[JARVIS] Error launching "; Fmt (PStr "no_such_app"); Lit ": ";
             Fmt (PStr "[WinError 2] The system cannot find the file specified")]],
     Return tt) /\
  exit_code (automation_runner.main Scenario.host
               ["automation_runner.py"; "open_desktop_app"; "no_such_app"]) = 0%Z /\
  exit_code (action_processor.main Scenario.host
               ["action_processor.py";
                Scenario.descriptor_text "open_desktop_app" "app_name" "no_such_app"])
  = 1%Z.
Proof. repeat split; vm_compute; reflexivity. Qed.

(** On the same failure [process_action] returns the [False] of
    [open_desktop_app], the value that lines 76 and 77 of
    [action_processor.py] turn into [sys.exit(1)]. *)
Example process_action_reports_launch_error :
  snd (action_processor.process_action Scenario.host
         (Scenario.descriptor_text "open_desktop_app" "app_name" "no_such_app"))
  = Return false.
Proof. vm_compute. reflexivity. Qed.

(** ** Scenarios of the specification, run on the scenario host *)

Example scenario_1_search :
  action_processor.process_action Scenario.host
    (Scenario.descriptor_text "search_google" "query" "weather today")
  = ([Invoke SearchGoogle (PStr "weather today");
      Print [Lit "[JARVIS] Searching Google for: '"; Fmt (PStr "weather today"); Lit "'"];
      WebbrowserOpen (PStr "https://www.google.com");
      TimeSleep 2;
      PyautoguiWrite (PStr "weather today");
      PyautoguiPress "enter";
      Print [Lit "[JARVIS] Search completed for: '"; Fmt (PStr "weather today"); Lit "'"]],
     Return true).
Proof. vm_compute. reflexivity. Qed.

Example scenario_3_notepad :
  action_processor.process_action Scenario.host
    (Scenario.descriptor_text "open_desktop_app" "app_name" "Notepad")
  = ([Invoke OpenDesktopApp (PStr "Notepad");
      Print [Lit "[JARVIS] Launching desktop app: "; Fmt (PStr "Notepad")];
      SubprocessPopen ["notepad"];
      Print [Lit "[JARVIS] Successfully launched: "; Fmt (PStr "notepad")]],
     Return true).
Proof. vm_compute. reflexivity. Qed.

Example scenario_4_not_json :
  action_processor.process_action Scenario.host "not valid json"
  = ([Print [Lit "Error: Invalid JSON format: "; Fmt (PStr "not valid json")]],
     Return false).
Proof. vm_compute. reflexivity. Qed.

Example scenario_5_calculator :
  automation_runner.main Scenario.host
    ["automation_runner.py"; "open_desktop_app"; "calculator"]
  = ([Invoke OpenDesktopApp (PStr "calculator");
      Print [Lit "[JARVIS] Launching desktop app: "; Fmt (PStr "calculator")];
      SubprocessPopen ["calc"];
      Print [Lit "[JARVIS] Successfully launched: "; Fmt (PStr "calculator")]],
     Return tt).
Proof. vm_compute. reflexivity. Qed.

(** The script [action_processor.py] as it stands: whatever its argument, the
    [SyntaxError] of line 70, no line printed, nothing called. *)
Example action_processor_script_does_not_compile h argv :
  fst (action_processor.main h argv) = [] /\
  exit_code (action_processor.main h argv) = 1%Z.
Proof. split; reflexivity. Qed.

(** * Further properties of the code *)

(** ** [process_action]: when it acts *)

Lemma recognized_inv a :
  recognized a = true -> exists op, a = PStr (action_name op).
Proof.
  destruct a; try discriminate. unfold recognized. cbn [py_eq_str].
  intros H. apply orb_prop in H as [H|H]; [apply orb_prop in H as [H|H]|];
    apply String.eqb_eq in H; subst.
  - now exists SearchGoogle.
  - now exists OpenWebApp.
  - now exists OpenDesktopApp.
Qed.

(** A refusal by [process_action]: the body refuses, under the handler. *)
Lemma refusal_process_action h s (body : run bool) :
  refusal body -> catchable body ->
  refusal (try_except body (action_processor.process_action_handler h s)).
Proof.
  intros Hb Hc. apply refusal_try_except; [exact Hb | exact Hc |].
  intros e. apply refusal_handler.
Qed.

(** X1: [process_action] enters [automation.py] only for a well-formed
    descriptor, and then once.  On every other text it enters no operation,
    makes no call into the browser, the keyboard or process creation, and
    does not return [True]. *)
Theorem process_action_acts_only_on_well_formed h s :
  let r := action_processor.process_action h s in
  (invocations (fst r) = [] /\ host_effects (fst r) = [] /\ snd r <> Return true)
  \/ (exists op v, well_formed h s op v /\ invocations (fst r) = [(op, v)]).
Proof.
  intros r. subst r.
  destruct (host_json_loads h s) as [e|v] eqn:Hl.
  { left. apply refusal_silent.
    unfold action_processor.process_action,
      action_processor.process_action_body, json_loads.
    rewrite Hl, bind_raise.
    apply refusal_process_action; [apply refusal_raise | catchable_tac]. }
  destruct v as [| | | | |l|d];
    try (left; apply refusal_silent;
         unfold action_processor.process_action,
           action_processor.process_action_body, json_loads;
         rewrite Hl, bind_ret_l; cbn [py_get]; rewrite bind_raise;
         apply refusal_process_action; [apply refusal_raise | catchable_tac]).
  destruct (recognized (default PNone (d !! "action"))) eqn:Hr.
  2:{ left. apply refusal_silent.
      rewrite (process_action_unrecognized _ _ _ Hl Hr).
      apply refusal_process_action; [apply refusal_print_false | catchable_tac]. }
  apply recognized_inv in Hr as [op Hop].
  assert (Ha : d !! "action" = Some (PStr (action_name op))).
  { destruct (d !! "action") as [a|]; [|discriminate]. now rewrite <- Hop. }
  rewrite (process_action_recognized _ _ _ _ Hl Ha).
  destruct (d !! "params") as [pv|] eqn:Hp; cbn [default from_option]; unfold id.
  2:{ left. apply refusal_silent. cbn [py_get]. rewrite bind_ret_l, lookup_empty.
      cbn [default from_option truthy negb].
      apply refusal_process_action; [apply refusal_print_false | catchable_tac]. }
  destruct pv as [| | | | |l|p];
    try (left; apply refusal_silent; cbn [py_get]; rewrite bind_raise;
         apply refusal_process_action; [apply refusal_raise | catchable_tac]).
  cbn [py_get]. rewrite bind_ret_l.
  destruct (p !! required_key op) as [v|] eqn:Hk; cbn [default from_option];
    unfold id;
    [|left; apply refusal_silent; cbn [truthy negb];
      apply refusal_process_action; [apply refusal_print_false | catchable_tac]].
  destruct (truthy v) eqn:Ht; cbn [negb];
    [|left; apply refusal_silent;
      apply refusal_process_action; [apply refusal_print_false | catchable_tac]].
  right. exists op, v. split.
  - exists d, p. now repeat split.
  - apply invocations_run_operation.
Qed.

(** X2: a recognized [action] whose [params] is present but is not an object
    ([null], a list, a string, ...) is refused with [False]: the
    [AttributeError] of the missing [get] is printed by the second [except]
    clause and no operation is entered. *)
Theorem process_action_rejects_params_not_object h s d op pv :
  host_json_loads h s = inr (PDict d) ->
  d !! "action" = Some (PStr (action_name op)) ->
  d !! "params" = Some pv ->
  (forall p, pv <> PDict p) ->
  action_processor.process_action h s =
  ([Print [Lit "Error processing action: ";
           Fmt (PStr ("'" ++ type_name pv ++ "' object has no attribute 'get'"))]],
   Return false).
Proof.
  intros Hl Ha Hp Hpv.
  rewrite (process_action_recognized _ _ _ _ Hl Ha), Hp.
  cbn [default from_option]. unfold id.
  destruct pv; try (now contradiction (Hpv d0));
    cbn [py_get]; run_simpl;
    (rewrite handler_prints;
     [reflexivity | discriminate
     | apply (attribute_error_plain h _ "get"); reflexivity]).
Qed.

Lemma process_action_rejects_params_not_object_witness :
  action_processor.process_action Edge.host Edge.null_params_text =
  ([Print [Lit "Error processing action: ";
           Fmt (PStr "'NoneType' object has no attribute 'get'")]],
   Return false).
Proof.
  refine (process_action_rejects_params_not_object Edge.host
            Edge.null_params_text
            (<["action" := PStr "search_google"]> (<["params" := PNone]> ∅))
            SearchGoogle PNone _ _ _ _).
  - vm_compute. reflexivity.
  - vm_compute. reflexivity.
  - vm_compute. reflexivity.
  - discriminate.
Defined.

(** X3: [open_desktop_app] lower-cases the name before its own [try], so an
    [app_name] that is not a string (a number, a list, ...) never reaches
    process creation: [process_action] calls nothing of the host and does not
    return [True].  When the console can print the value, the run is the
    first line of [open_desktop_app], then the [AttributeError] of the
    missing [lower], printed by [process_action], and [False]. *)
Theorem process_action_rejects_app_name_not_str h s v :
  well_formed h s OpenDesktopApp v ->
  (forall q, v <> PStr q) ->
  let r := action_processor.process_action h s in
  host_effects (fst r) = [] /\
  snd r <> Return true /\
  (printable h v = true ->
   r = ([Invoke OpenDesktopApp v;
         Print [Lit "[JARVIS] Launching desktop app: "; Fmt v];
         Print [Lit "Error processing action: ";
                Fmt (PStr ("'" ++ type_name v ++ "' object has no attribute 'lower'"))]],
        Return false)).
Proof.
  intros Hwf Hv r. subst r.
  rewrite (process_action_dispatch _ _ _ _ Hwf). cbn [run_operation].
  rewrite (open_desktop_app_not_str _ _ Hv). cbv zeta.
  destruct (printable h v).
  - rewrite try_except_exc, handler_prints;
      [| discriminate | apply (attribute_error_plain h _ "lower"); reflexivity].
    repeat split. discriminate.
  - rewrite try_except_exc.
    destruct (refusal_silent _ (refusal_handler h s
                (print_error h [Lit "[JARVIS] Launching desktop app: "; Fmt v])))
      as (_ & He & Hn).
    cbn [fst snd]. unfold host_effects in *. rewrite List.filter_app, He.
    repeat split; [exact Hn | discriminate].
Qed.

Lemma process_action_rejects_app_name_not_str_witness :
  action_processor.process_action Edge.host Edge.number_app_name_text =
  ([Invoke OpenDesktopApp (PInt 7);
    Print [Lit "[JARVIS] Launching desktop app: "; Fmt (PInt 7)];
    Print [Lit "Error processing action: ";
           Fmt (PStr "'int' object has no attribute 'lower'")]],
   Return false).
Proof.
  refine (proj2 (proj2 (process_action_rejects_app_name_not_str Edge.host
                          Edge.number_app_name_text (PInt 7) _ _)) _).
  - exists (<["action" := PStr "open_desktop_app"]>
              (<["params" := PDict (<["app_name" := PInt 7]> ∅)]> ∅)),
           (<["app_name" := PInt 7]> ∅).
    repeat split; vm_compute; reflexivity.
  - discriminate.
  - reflexivity.
Defined.

(** X14: on a console that can print every string, [process_action] always
    returns a boolean: no exception leaves it, whatever the text and whatever
    else the host does. *)
Theorem process_action_returns_when_console_prints h s :
  (forall text, printable h (PStr text) = true) ->
  exists t b, action_processor.process_action h s = (t, Return b).
Proof.
  intros Hp. unfold action_processor.process_action.
  pose proof (catchable_process_action_body h s) as Hc.
  destruct (action_processor.process_action_body h s) as [t [b|[e|c]]].
  - now exists t, b.
  - rewrite try_except_exc, handler_run. cbv zeta.
    destruct (exn_class_of e); cbn [forallb piece_printable];
      rewrite Hp; now eexists _, _.
  - now contradiction (Hc c).
Qed.

Lemma process_action_returns_when_console_prints_witness :
  exists t b,
    action_processor.process_action Scenario.host Scenario.not_json_coffee
    = (t, Return b).
Proof.
  apply (process_action_returns_when_console_prints Scenario.host).
  intros text. unfold printable. apply orb_true_r.
Defined.

(** ** [automation_runner.main] *)

(** The runner with a recognized command type: the operation on the
    parameter as a string, its result dropped, under the [except] clause. *)
Lemma automation_runner_main_recognized h prog op parameter rest :
  automation_runner.main h (prog :: action_name op :: parameter :: rest) =
  try_except
    (run_operation h op (PStr parameter) ;; ret tt)
    (fun e =>
       print h [Lit "Error executing "; Fmt (PStr (action_name op)); Lit ": ";
                Fmt (PStr (exn_str e))] ;;
       sys_exit 1).
Proof.
  unfold automation_runner.main.
  cbn [length Nat.ltb Nat.leb lookup list_lookup].
  rewrite !bind_ret_l. now destruct op.
Qed.

(** The runner with any other command type: the line that names it, under
    the [except] clause, which [SystemExit] passes. *)
Lemma automation_runner_main_unknown h prog command_type parameter rest :
  (forall op, command_type <> action_name op) ->
  automation_runner.main h (prog :: command_type :: parameter :: rest) =
  try_except
    (print h [Lit "Error: Unknown command type '"; Fmt (PStr command_type);
              Lit "'"] ;;
     sys_exit 1)
    (fun e =>
       print h [Lit "Error executing "; Fmt (PStr command_type); Lit ": ";
                Fmt (PStr (exn_str e))] ;;
       sys_exit 1).
Proof.
  intros Hc. unfold automation_runner.main.
  cbn [length Nat.ltb Nat.leb lookup list_lookup].
  rewrite !bind_ret_l.
  destruct (String.eqb_spec command_type "search_google") as [E|_];
    [now contradiction (Hc SearchGoogle)|].
  destruct (String.eqb_spec command_type "open_web_app") as [E|_];
    [now contradiction (Hc OpenWebApp)|].
  destruct (String.eqb_spec command_type "open_desktop_app") as [E|_];
    [now contradiction (Hc OpenDesktopApp)|].
  reflexivity.
Qed.

(** A line, then [sys.exit(1)]: exit status 1 either way. *)
Lemma print_exit_run h msg :
  (print h msg ;; @sys_exit unit 1) =
  if forallb (piece_printable h) msg then ([Print msg], Raise (SystemExit 1))
  else ([], Raise (Exc (print_error h msg))).
Proof.
  unfold print, sys_exit. destruct (forallb _ msg); run_simpl; reflexivity.
Qed.

Lemma action_name_printable h op : printable h (PStr (action_name op)) = true.
Proof. now destruct op. Qed.

(** X6: a command type that is none of the three enters no operation, calls
    nothing of the host and ends with exit status 1.  When the console can
    print it, the run is the line [Unknown command type], naming it, and
    [sys.exit(1)], which [except Exception] does not stop.  When it cannot,
    that [print] raises, the [except] clause prints the command type again,
    and the exception of this second [print] leaves [main]. *)
Theorem automation_runner_main_unknown_command h prog command_type parameter rest :
  (forall op, command_type <> action_name op) ->
  let r := automation_runner.main h (prog :: command_type :: parameter :: rest) in
  let unknown_line :=
    [Lit "Error: Unknown command type '"; Fmt (PStr command_type); Lit "'"] in
  exit_code r = 1%Z /\
  invocations (fst r) = [] /\
  host_effects (fst r) = [] /\
  (printable h (PStr command_type) = true ->
   r = ([Print unknown_line], Raise (SystemExit 1))) /\
  (printable h (PStr command_type) = false ->
   r = ([], Raise (Exc (print_error h
                          [Lit "Error executing "; Fmt (PStr command_type);
                           Lit ": ";
                           Fmt (PStr (exn_str (print_error h unknown_line)))])))).
Proof.
  intros Hc r unknown_line. subst r unknown_line.
  rewrite (automation_runner_main_unknown _ _ _ _ _ Hc), print_exit_run.
  cbn [forallb piece_printable].
  destruct (printable h (PStr command_type)) eqn:Hp; cbn [andb].
  - repeat split. discriminate.
  - rewrite try_except_exc, print_exit_run.
    cbn [forallb piece_printable]. rewrite Hp. cbn [andb].
    repeat split. discriminate.
Qed.

Lemma automation_runner_main_unknown_command_witness :
  automation_runner.main Scenario.host
    ["automation_runner.py"; "delete_everything"; "now"]
  = ([Print [Lit "Error: Unknown command type '"; Fmt (PStr "delete_everything");
             Lit "'"]],
     Raise (SystemExit 1)).
Proof.
  destruct (automation_runner_main_unknown_command Scenario.host
              "automation_runner.py" "delete_everything" "now" [])
    as (_ & _ & _ & H & _).
  - intros []; discriminate.
  - apply H. reflexivity.
Defined.

(** X7: with a recognized command type the runner returns (exit status 0)
    whenever the operation returns, whatever boolean it returns; when the
    operation raises, the runner ends with exit status 1, and, when the
    console can print the text of the exception, after printing [Error
    executing], the command type and that text. *)
Theorem automation_runner_main_dispatch h prog op parameter rest :
  let r := automation_runner.main h
             (prog :: action_name op :: parameter :: rest) in
  (forall t b, run_operation h op (PStr parameter) = (t, Return b) ->
     r = (t, Return tt)) /\
  (forall t e, run_operation h op (PStr parameter) = (t, Raise (Exc e)) ->
     printable h (PStr (exn_str e)) = true ->
     r = ((t ++ [Print [Lit "Error executing "; Fmt (PStr (action_name op));
                        Lit ": "; Fmt (PStr (exn_str e))]])%list,
          Raise (SystemExit 1))) /\
  (forall t e, run_operation h op (PStr parameter) = (t, Raise (Exc e)) ->
     exit_code r = 1%Z).
Proof.
  intros r. subst r. rewrite automation_runner_main_recognized.
  split; [|split].
  - intros t b ->. run_simpl. now rewrite app_nil_r.
  - intros t e -> Hp. run_simpl. rewrite print_exit_run.
    cbn [forallb piece_printable]. rewrite action_name_printable, Hp.
    reflexivity.
  - intros t e ->. run_simpl. rewrite print_exit_run.
    now destruct (forallb _ _).
Qed.

Lemma automation_runner_main_dispatch_witness :
  automation_runner.main Scenario.failsafe_host
    ["automation_runner.py"; "search_google"; "weather today"]
  = ([Invoke SearchGoogle (PStr "weather today");
      Print [Lit "[JARVIS] Searching Google for: '"; Fmt (PStr "weather today"); Lit "'"];
      WebbrowserOpen (PStr "https://www.google.com");
      TimeSleep 2;
      PyautoguiWrite (PStr "weather today");
      Print [Lit "Error executing "; Fmt (PStr "search_google"); Lit ": ";
             Fmt (PStr "PyAutoGUI fail-safe triggered from mouse moving to a corner of the screen.")]],
     Raise (SystemExit 1)) /\
  automation_runner.main Scenario.host
    ["automation_runner.py"; "open_web_app"; "https://example.com"]
  = ([Invoke OpenWebApp (PStr "https://example.com");
      Print [Lit "[JARVIS] Opening web app: "; Fmt (PStr "https://example.com")];
      WebbrowserOpen (PStr "https://example.com");
      Print [Lit "[JARVIS] Opened web app: "; Fmt (PStr "https://example.com")]],
     Return tt).
Proof.
  split.
  - destruct (automation_runner_main_dispatch Scenario.failsafe_host
                "automation_runner.py" SearchGoogle "weather today" [])
      as (_ & He & _).
    cbn [action_name] in He. erewrite He; cycle 1; reflexivity.
  - destruct (automation_runner_main_dispatch Scenario.host
                "automation_runner.py" OpenWebApp "https://example.com" [])
      as (Hr & _).
    cbn [action_name] in Hr. erewrite Hr; cycle 1; reflexivity.
Defined.

(** X8: the runner does not check its parameter: whatever the parameter, the
    empty string included, a recognized command type enters its operation,
    once, with that parameter. *)
Theorem automation_runner_main_passes_parameter h prog op parameter rest :
  invocations
    (fst (automation_runner.main h
            (prog :: action_name op :: parameter :: rest)))
  = [(op, PStr parameter)].
Proof.
  rewrite automation_runner_main_recognized.
  pose proof (catchable_run_operation h op (PStr parameter)) as Hc.
  pose proof (invocations_operation h op (PStr parameter)) as Hi.
  destruct (run_operation h op (PStr parameter)) as [t [b|[e|c]]];
    cbn [fst] in Hi.
  - run_simpl. now rewrite app_nil_r.
  - run_simpl. rewrite print_exit_run. unfold invocations in *.
    rewrite omap_app, Hi. now destruct (forallb _ _).
  - now contradiction (Hc c).
Qed.

(** X9: the exit status of [automation_runner.main] is 0 or 1, whatever the
    arguments and the host, and it is 0 only when the command type is one of
    the three and its operation, called on the parameter, returned. *)
Theorem automation_runner_main_exit_status h argv :
  let r := automation_runner.main h argv in
  (exit_code r = 0%Z \/ exit_code r = 1%Z) /\
  (exit_code r = 0%Z ->
   exists op parameter t b,
     argv !! 1%nat = Some (action_name op) /\
     argv !! 2%nat = Some parameter /\
     run_operation h op (PStr parameter) = (t, Return b) /\
     r = (t, Return tt)).
Proof.
  intros r. subst r.
  destruct argv as [|prog [|c [|p rest]]];
    try (split; [now right | discriminate]).
  assert (Hop : (exists op, c = action_name op) \/
                (forall op, c <> action_name op)).
  { destruct (String.eqb_spec c "search_google");
      [left; now exists SearchGoogle|].
    destruct (String.eqb_spec c "open_web_app");
      [left; now exists OpenWebApp|].
    destruct (String.eqb_spec c "open_desktop_app");
      [left; now exists OpenDesktopApp|].
    right. now intros []. }
  destruct Hop as [[op ->]|Hc].
  - rewrite automation_runner_main_recognized.
    pose proof (catchable_run_operation h op (PStr p)) as Hc.
    destruct (run_operation h op (PStr p)) as [t [b|[e|c]]] eqn:Hr.
    + run_simpl. rewrite app_nil_r. split; [now left|].
      intros _. now exists op, p, t, b.
    + run_simpl. rewrite print_exit_run.
      destruct (forallb _ _); (split; [now right | discriminate]).
    + now contradiction (Hc c).
  - rewrite (automation_runner_main_unknown _ _ _ _ _ Hc), print_exit_run.
    destruct (forallb _ _).
    + split; [now right | discriminate].
    + rewrite try_except_exc, print_exit_run.
      destruct (forallb _ _); (split; [now right | discriminate]).
Qed.

(** ** The two dispatchers side by side *)

(** On a string, an operation returns [False] only as [open_desktop_app]
    after a failed process creation. *)
Lemma run_operation_returns_false h op q t :
  run_operation h op (PStr q) = (t, Return false) ->
  op = OpenDesktopApp /\
  exists f, host_subprocess_Popen h
              (launch_command h (str_lower h q)) = Some f.
Proof.
  destruct op; cbn [run_operation].
  - rewrite search_google_run. cbv zeta. split_run; discriminate.
  - rewrite open_web_app_run. cbv zeta. split_run; discriminate.
  - rewrite open_desktop_app_run. cbv zeta.
    destruct (host_subprocess_Popen h _) as [f|]; [intros _; eauto|].
    split_run; discriminate.
Qed.

(** X10: for the same operation and the same string parameter,
    [process_action] and the two-argument runner enter the same operation and
    make the same calls into the host.  When [process_action] returns [True]
    the runner ends with exit status 0; the runner also ends with exit status
    0 in one more case only: [open_desktop_app] after a failed process
    creation, where [process_action] returns [False]. *)
Theorem dispatchers_agree h s op q prog rest :
  well_formed h s op (PStr q) ->
  let a := action_processor.process_action h s in
  let b := automation_runner.main h (prog :: action_name op :: q :: rest) in
  invocations (fst a) = invocations (fst b) /\
  host_effects (fst a) = host_effects (fst b) /\
  (snd a = Return true -> exit_code b = 0%Z) /\
  (exit_code b = 0%Z ->
   snd a = Return true \/
   (op = OpenDesktopApp /\ snd a = Return false /\
    exists f, host_subprocess_Popen h
                (launch_command h (str_lower h q)) = Some f)).
Proof.
  intros Hwf a b. subst a b.
  rewrite automation_runner_main_recognized.
  rewrite (process_action_dispatch _ _ _ _ Hwf).
  pose proof (catchable_run_operation h op (PStr q)) as Hc.
  pose proof (run_operation_returns_false h op q) as Hf.
  destruct (run_operation h op (PStr q)) as [t [r|[e|c]]].
  - run_simpl. rewrite app_nil_r.
    split; [reflexivity|]. split; [reflexivity|]. split; [reflexivity|].
    intros _. destruct r; [now left|]. right.
    destruct (Hf t eq_refl) as [-> Hex]. now repeat split.
  - rewrite !try_except_exc, bind_raised, try_except_exc, print_exit_run.
    destruct (refusal_silent _ (refusal_handler h s e)) as (Hi & He & Hn).
    cbn [fst snd]. unfold invocations, host_effects in *.
    rewrite !omap_app, !List.filter_app, Hi, He.
    destruct (forallb _ _); cbn [fst snd];
      (split; [reflexivity|]; split; [reflexivity|];
       split; [intros Ht; now contradiction Hn | discriminate]).
  - now contradiction (Hc c).
Qed.

Lemma dispatchers_agree_witness :
  host_effects
    (fst (action_processor.process_action Scenario.host
            (Scenario.descriptor_text "search_google" "query" "weather today")))
  = host_effects
      (fst (automation_runner.main Scenario.host
              ["automation_runner.py"; "search_google"; "weather today"])) /\
  exit_code
    (automation_runner.main Scenario.host
       ["automation_runner.py"; "search_google"; "weather today"]) = 0%Z.
Proof.
  destruct (dispatchers_agree Scenario.host _ _ _ "automation_runner.py" []
              scenario_search_well_formed) as (_ & He & Hx & _).
  split; [exact He|]. apply Hx. reflexivity.
Defined.

(** ** More on the Executor *)


Lemma lower_ascii_idempotent c : lower_ascii (lower_ascii c) = lower_ascii c.
Proof. destruct c as [[] [] [] [] [] [] [] []]; reflexivity. Qed.

Lemma lower_idempotent s : lower (lower s) = lower s.
Proof.
  induction s as [|c s IH]; [reflexivity|].
  cbn [lower]. now rewrite lower_ascii_idempotent, IH.
Qed.

(** Lower-casing keeps a byte on its side of 128. *)
Lemma lower_ascii_range c :
  (nat_of_ascii (lower_ascii c) <? 128)%nat = (nat_of_ascii c <? 128)%nat.
Proof. destruct c as [[] [] [] [] [] [] [] []]; reflexivity. Qed.

Lemma is_ascii_lower s : is_ascii (lower s) = is_ascii s.
Proof.
  induction s as [|c s IH]; [reflexivity|].
  cbn [lower is_ascii]. now rewrite lower_ascii_range, IH.
Qed.

Lemma alias_keys_lower h k cmd : In (k, cmd) (alias_table h) -> lower k = k.
Proof.
  unfold alias_table. simpl.
  intros [H|[H|[H|[H|[H|[H|[H|[]]]]]]]]; inversion H; subst; reflexivity.
Qed.

Lemma ascii_printable h s : is_ascii s = true -> printable h (PStr s) = true.
Proof. intros Hs. unfold printable. cbn [plain]. now rewrite Hs. Qed.

(** X12: on an ASCII name, [open_desktop_app] does not tell the letter cases
    apart: two names with the same lower case create the same process with
    the same result, a name and its lower case do, and every spelling of an
    alias launches the command of the alias. *)
Theorem open_desktop_app_ignores_case h a :
  is_ascii a = true ->
  let r := automation.open_desktop_app h (PStr a) in
  (forall b, lower a = lower b ->
     host_effects (fst r) = host_effects (fst (automation.open_desktop_app h (PStr b))) /\
     snd r = snd (automation.open_desktop_app h (PStr b))) /\
  (host_effects (fst r) =
     host_effects (fst (automation.open_desktop_app h (PStr (lower a)))) /\
   snd r = snd (automation.open_desktop_app h (PStr (lower a)))) /\
  (forall k cmd, In (k, cmd) (alias_table h) -> lower a = k ->
     host_effects (fst r) = [SubprocessPopen cmd]).
Proof.
  intros Ha r. subst r.
  assert (Hsame : forall b, lower a = lower b ->
    host_effects (fst (automation.open_desktop_app h (PStr a))) =
      host_effects (fst (automation.open_desktop_app h (PStr b))) /\
    snd (automation.open_desktop_app h (PStr a)) =
      snd (automation.open_desktop_app h (PStr b))).
  { intros b Hb.
    assert (Hb' : is_ascii b = true).
    { now rewrite <- is_ascii_lower, <- Hb, is_ascii_lower. }
    rewrite !open_desktop_app_run. cbv zeta. unfold str_lower.
    rewrite Ha, Hb', <- Hb, !ascii_printable
      by (rewrite ?is_ascii_lower; assumption).
    destruct (host_subprocess_Popen h _) as [f|]; [|now split].
    cbn [andb]. now destruct (printable h (PStr (failure_str f))). }
  split; [exact Hsame|]. split.
  - apply Hsame. now rewrite lower_idempotent.
  - intros k cmd Hin <-. rewrite open_desktop_app_run. cbv zeta.
    unfold str_lower. rewrite Ha, (launch_command_alias _ _ _ Hin),
      !ascii_printable by (rewrite ?is_ascii_lower; assumption).
    destruct (host_subprocess_Popen h cmd) as [f|]; [|reflexivity].
    cbn [andb]. now destruct (printable h (PStr (failure_str f))).
Qed.

Lemma open_desktop_app_ignores_case_witness :
  host_effects (fst (automation.open_desktop_app Scenario.host (PStr "NOTEPAD")))
  = host_effects (fst (automation.open_desktop_app Scenario.host (PStr "Notepad"))) /\
  host_effects (fst (automation.open_desktop_app Scenario.host (PStr "File Explorer")))
  = [SubprocessPopen ["explorer"]].
Proof.
  split.
  - destruct (open_desktop_app_ignores_case Scenario.host "NOTEPAD") as (H & _);
      [reflexivity|].
    apply (H "Notepad"). reflexivity.
  - destruct (open_desktop_app_ignores_case Scenario.host "File Explorer")
      as (_ & _ & H); [reflexivity|].
    apply (H "file explorer" ["explorer"]); [|reflexivity].
    simpl. tauto.
Defined.

(** ** Keys that [process_action] does not read *)

(** X13: [process_action] reads the [action] and the one key of [params] that
    the operation requires, nothing else: two texts that are well-formed for
    the same operation and the same parameter enter the same operation, make
    the same calls into the host and return the same boolean, whatever other
    keys they hold. *)
Theorem process_action_ignores_other_keys h s1 s2 op v :
  well_formed h s1 op v ->
  well_formed h s2 op v ->
  let r1 := action_processor.process_action h s1 in
  let r2 := action_processor.process_action h s2 in
  invocations (fst r1) = invocations (fst r2) /\
  host_effects (fst r1) = host_effects (fst r2) /\
  snd r1 = snd r2.
Proof.
  intros H1 H2 r1 r2. subst r1 r2.
  rewrite (process_action_dispatch _ _ _ _ H1), (process_action_dispatch _ _ _ _ H2).
  pose proof (catchable_run_operation h op v) as Hc.
  pose proof (run_operation_exn_class h op v) as Hcls.
  destruct (run_operation h op v) as [t [b|[e|c]]].
  - now repeat split.
  - specialize (Hcls t e eq_refl).
    rewrite !try_except_exc, !handler_run. cbv zeta.
    destruct (exn_class_of e); try (now contradiction Hcls); now repeat split.
  - now contradiction (Hc c).
Qed.

Lemma edge_tagged_search_well_formed :
  well_formed Edge.host Edge.tagged_search_text SearchGoogle (PStr "weather today").
Proof.
  exists (<["source" := PStr "voice"]>
            (<["action" := PStr "search_google"]>
               (<["params" := PDict (<["query" := PStr "weather today"]>
                                       (<["lang" := PStr "en"]> ∅))]> ∅))),
         (<["query" := PStr "weather today"]> (<["lang" := PStr "en"]> ∅)).
  repeat split; vm_compute; reflexivity.
Defined.

Lemma edge_plain_search_well_formed :
  well_formed Edge.host
    (Scenario.descriptor_text "search_google" "query" "weather today")
    SearchGoogle (PStr "weather today").
Proof.
  exists (<["action" := PStr "search_google"]>
            (<["params" := PDict (<["query" := PStr "weather today"]> ∅)]> ∅)),
         (<["query" := PStr "weather today"]> ∅).
  repeat split; vm_compute; reflexivity.
Defined.

Lemma process_action_ignores_other_keys_witness :
  host_effects (fst (action_processor.process_action Edge.host
                       Edge.tagged_search_text))
  = host_effects (fst (action_processor.process_action Edge.host
                         (Scenario.descriptor_text "search_google" "query"
                            "weather today"))) /\
  snd (action_processor.process_action Edge.host Edge.tagged_search_text)
  = snd (action_processor.process_action Edge.host
           (Scenario.descriptor_text "search_google" "query" "weather today")).
Proof.
  exact (proj2 (process_action_ignores_other_keys Edge.host _ _ _ _
                  edge_tagged_search_well_formed edge_plain_search_well_formed)).
Defined.
